(** * SustainaMine LCA estimator ([applications.py]): a shallow embedding

    The estimator is the body of the [if run_button:] block of the Streamlit
    script.  It reads eight form values and the [default_factors] dictionary
    and computes, with Python's [int]/[float] arithmetic, the figures shown in
    the results panel, the compliance flags and the recommendations.

    Python floats are IEEE 754 binary64 numbers; they are modelled by Rocq's
    primitive floats, so every arithmetic step below rounds exactly as the
    interpreter does.  Python integers are modelled by [Z].  *)

From Stdlib Require Import ZArith Lia List Bool DecimalString.
From Stdlib Require Import Floats.PrimFloat Floats.FloatOps Floats.SpecFloat.
From Stdlib Require Import Numbers.Cyclic.Int63.Uint63.
From stdpp Require Import gmap strings.

Set Warnings "-inexact-float".
Local Open Scope Z_scope.

(** ** Python numbers *)

(** A Python number as the script has them: an [int] (form values and
    integer literals) or a [float] (the coefficients and everything computed
    from them). *)
Inductive num : Type :=
  | PyInt (z : Z)
  | PyFloat (f : float).

(** The exceptions the block can raise on integers that convert to [float]:
    a division by zero or a missing dictionary key.  [OverflowError], which
    the conversion of an integer beyond the float range raises, is not
    modelled: the statements below keep the form integers in the range of
    [valid] or of [ints_convert_exactly]. *)
Inductive exn : Type :=
  | ZeroDivisionError
  | KeyError (key : string).

Inductive result (A : Type) : Type :=
  | OK (a : A)
  | Raise (e : exn).
Arguments OK {A} a.
Arguments Raise {A} e.

#[global] Instance result_ret : MRet result := fun A a => OK a.

#[global] Instance result_bind : MBind result := fun A B k m =>
  match m with
  | OK a => k a
  | Raise e => Raise e
  end.

Module Py.

(** [float(z)] for an integer below 2^63 in magnitude.  The conversion is
    exact below 2^53, which covers every integer the form can supply and every
    integer literal of the script; in that range converting the [int] operand
    is also what Python's mixed comparisons and its [int / int] amount to. *)
Definition float_of_Z (z : Z) : float :=
  if z <? 0 then PrimFloat.opp (PrimFloat.of_uint63 (Uint63.of_Z (- z)))
  else PrimFloat.of_uint63 (Uint63.of_Z z).

Definition to_float (x : num) : float :=
  match x with
  | PyInt z => float_of_Z z
  | PyFloat f => f
  end.

(** Binary operators: [int op int] stays an [int]; as soon as one operand is a
    [float] the other one is converted and the operation is the binary64 one. *)
Definition add (x y : num) : num :=
  match x, y with
  | PyInt a, PyInt b => PyInt (a + b)
  | _, _ => PyFloat (PrimFloat.add (to_float x) (to_float y))
  end.

Definition sub (x y : num) : num :=
  match x, y with
  | PyInt a, PyInt b => PyInt (a - b)
  | _, _ => PyFloat (PrimFloat.sub (to_float x) (to_float y))
  end.

Definition mul (x y : num) : num :=
  match x, y with
  | PyInt a, PyInt b => PyInt (a * b)
  | _, _ => PyFloat (PrimFloat.mul (to_float x) (to_float y))
  end.

Definition is_zero (x : num) : bool :=
  match x with
  | PyInt z => z =? 0
  | PyFloat f => PrimFloat.eqb f 0%float
  end.

(** True division [x / y]: always a [float]; a zero divisor of either type
    raises [ZeroDivisionError]. *)
Definition truediv (x y : num) : result num :=
  if is_zero y then Raise ZeroDivisionError
  else OK (PyFloat (PrimFloat.div (to_float x) (to_float y))).

Definition lt (x y : num) : bool :=
  match x, y with
  | PyInt a, PyInt b => a <? b
  | _, _ => PrimFloat.ltb (to_float x) (to_float y)
  end.

Definition gt (x y : num) : bool := lt y x.

Definition le (x y : num) : bool :=
  match x, y with
  | PyInt a, PyInt b => a <=? b
  | _, _ => PrimFloat.leb (to_float x) (to_float y)
  end.

(** [x == y] on numbers compares values, so [0 == 0.0] holds. *)
Definition eq (x y : num) : bool :=
  match x, y with
  | PyInt a, PyInt b => a =? b
  | _, _ => PrimFloat.eqb (to_float x) (to_float y)
  end.

(** The two-argument builtin [min(x, y)]: it keeps [x] unless [y < x]. *)
Definition min (x y : num) : num := if lt y x then y else x.

(** [d[key]] on a dictionary of floats. *)
Definition getitem (d : gmap string float) (key : string) : result num :=
  match d !! key with
  | Some v => OK (PyFloat v)
  | None => Raise (KeyError key)
  end.

End Py.

Declare Scope py_scope.
Delimit Scope py_scope with py.
Infix "+" := Py.add : py_scope.
Infix "-" := Py.sub : py_scope.
Infix "*" := Py.mul : py_scope.
Infix "/" := Py.truediv : py_scope.

(** ** The coefficient table (lines 81-96) *)

Definition default_factors : gmap string float :=
  list_to_map [
    ("aluminium_virgin_kgco2_per_kg", 16.0%float);
    ("aluminium_recycled_kgco2_per_kg", 4.0%float);
    ("copper_virgin_kgco2_per_kg", 8.0%float);
    ("copper_recycled_kgco2_per_kg", 2.0%float);
    ("red_mud_t_per_t_aluminium", 1.5%float);
    ("so2_kg_per_t_copper", 25.0%float);
    ("transport_kgco2_per_tkm", 0.05%float);
    ("recycle_cost_usd_per_t_aluminium", 200.0%float);
    ("recycle_cost_usd_per_t_copper", 300.0%float)
  ].

(** ** The form (lines 106-119) *)

Record input : Type := {
  metal : string;
  production_route : string;
  recycled_pct : Z;
  energy_source : string;
  transport_km : Z;
  transport_tonnes : Z;
  eol_option : string;
  storage_practice : string
}.

Definition metal_options : list string := ["Aluminium"; "Copper"].
Definition production_route_options : list string :=
  ["Virgin/Raw"; "Recycled"; "Mixed"].
Definition energy_source_options : list string :=
  ["Coal-based grid"; "Mixed grid"; "Renewable-heavy"].
Definition eol_option_options : list string :=
  ["Landfill"; "Recycling"; "Reuse"].
Definition storage_practice_options : list string :=
  ["Proper authorized storage"; "Temporary open storage"; "Untreated disposal"].

(** What the widgets can return: a member of each select box, and an integer
    inside the slider's and the number inputs' bounds. *)
Record valid (i : input) : Prop := {
  valid_metal : In (metal i) metal_options;
  valid_route : In (production_route i) production_route_options;
  valid_pct : 0 <= recycled_pct i <= 100;
  valid_energy : In (energy_source i) energy_source_options;
  valid_km : 0 <= transport_km i <= 5000;
  valid_tonnes : 1 <= transport_tonnes i <= 10000;
  valid_eol : In (eol_option i) eol_option_options;
  valid_storage : In (storage_practice i) storage_practice_options
}.

(** ** The estimator (lines 121-240)

    Each paragraph of the block is one definition, named after the variable
    it assigns; [run_button_block] chains them in source order. *)

Local Open Scope py_scope.

(** [default_factors[key]]. *)
Definition factor (key : string) : result num := Py.getitem default_factors key.

(** Lines 127-145: the baseline CO2 factor and the red-mud tonnage.  The outer
    test is on ["Aluminium"]; every other metal takes the copper branch. *)
Definition choose_baseline (i : input) : result (num * num) :=
  if String.eqb (metal i) "Aluminium" then
    baseline ←
      (if String.eqb (production_route i) "Virgin/Raw" then
         factor "aluminium_virgin_kgco2_per_kg"
       else if String.eqb (production_route i) "Recycled" then
         factor "aluminium_recycled_kgco2_per_kg"
       else
         v ← factor "aluminium_virgin_kgco2_per_kg";
         a ← v * (PyInt 100 - PyInt (recycled_pct i)) / PyInt 100;
         r ← factor "aluminium_recycled_kgco2_per_kg";
         b ← r * PyInt (recycled_pct i) / PyInt 100;
         mret (a + b));
    ratio ← factor "red_mud_t_per_t_aluminium";
    mret (baseline, ratio * PyInt (transport_tonnes i))
  else
    baseline ←
      (if String.eqb (production_route i) "Virgin/Raw" then
         factor "copper_virgin_kgco2_per_kg"
       else if String.eqb (production_route i) "Recycled" then
         factor "copper_recycled_kgco2_per_kg"
       else
         v ← factor "copper_virgin_kgco2_per_kg";
         a ← v * (PyInt 100 - PyInt (recycled_pct i)) / PyInt 100;
         r ← factor "copper_recycled_kgco2_per_kg";
         b ← r * PyInt (recycled_pct i) / PyInt 100;
         mret (a + b));
    mret (baseline, PyInt 0).

(** Lines 148-156: the energy multiplier and its provenance note. *)
Definition energy_adjustment (i : input) : num * string :=
  if String.eqb (energy_source i) "Coal-based grid" then
    (PyFloat 1.2, "Assumed national average coal-heavy grid factor (illustrative).")
  else if String.eqb (energy_source i) "Mixed grid" then
    (PyFloat 1.0, "Assumed mixed grid emissions factor (illustrative).")
  else
    (PyFloat 0.8, "Assumed renewable-heavy grid factor (illustrative).").

(** Line 161: the per-kg transport expression.  The conditional protects the
    inner quotient only; the last division is by [transport_tonnes] itself. *)
Definition guarded_divisor (i : input) : num :=
  if Py.gt (PyInt (transport_tonnes i)) (PyInt 0)
  then PyInt (transport_tonnes i) else PyInt 1.

Definition transport_emission_per_kg_expr (i : input) : result num :=
  t ← factor "transport_kgco2_per_tkm";
  quotient ← PyInt (transport_tonnes i) / guarded_divisor i;
  t * PyInt (transport_km i) * quotient / PyInt (transport_tonnes i).

(** Line 163. *)
Definition transport_kgco2_per_ton_expr (i : input) : result num :=
  t ← factor "transport_kgco2_per_tkm";
  mret (t * PyInt (transport_km i)).

(** Lines 168-173: the circularity score. *)
Definition circularity_score (i : input) : num :=
  let circularity := PyInt (recycled_pct i) * PyFloat 0.5 in
  let circularity :=
    if String.eqb (eol_option i) "Recycling" then circularity + PyInt 30
    else if String.eqb (eol_option i) "Reuse" then circularity + PyInt 40
    else circularity in
  Py.min (PyInt 100) circularity.

(** Lines 176-179: the SO2 estimate. *)
Definition so2_estimate (i : input) : result num :=
  if String.eqb (metal i) "Copper" then
    ratio ← factor "so2_kg_per_t_copper";
    mret (ratio * PyInt (transport_tonnes i))
  else mret (PyInt 0).

(** Lines 182-187: the recycling cost. *)
Definition recycle_cost_estimate (i : input) : result num :=
  if String.eqb (metal i) "Aluminium" then
    c ← factor "recycle_cost_usd_per_t_aluminium";
    mret (c * PyInt (transport_tonnes i))
  else if String.eqb (metal i) "Copper" then
    c ← factor "recycle_cost_usd_per_t_copper";
    mret (c * PyInt (transport_tonnes i))
  else mret (PyInt 0).

(** Lines 219-227: the compliance flags, each a (category, message) pair. *)
Definition storage_flag : string * string :=
  ("Storage practice",
   "⚠️ Not authorized/temporary storage — requires review under Hazardous & Other Wastes Rules (2016)").
Definition red_mud_flag : string * string :=
  ("Red mud handling",
   "ℹ️ Red mud generation flagged — follow CPCB Guidelines for Handling & Management of Red Mud").
Definition air_emissions_flag : string * string :=
  ("Air emissions",
   "ℹ️ SO₂ emissions estimated — recommend gas capture & conversion to sulfuric acid; ensure air emission controls").
Definition circularity_flag : string * string :=
  ("Circularity",
   "⚠️ Low circularity score — consider increasing recycled input or recycling infrastructure").

(** [flags.append(x)] under a condition, on the list built so far. *)
Definition append_if {A : Type} (c : bool) (x : A) (l : list A) : list A :=
  if c then l ++ [x] else l.

Definition compliance_flags (i : input) (red_mud_t so2_kg_total circularity : num)
  : list (string * string) :=
  let flags := [] in
  let flags :=
    append_if (negb (String.eqb (storage_practice i) "Proper authorized storage"))
      storage_flag flags in
  let flags :=
    append_if (String.eqb (metal i) "Aluminium" && Py.gt red_mud_t (PyInt 0))
      red_mud_flag flags in
  let flags :=
    append_if (String.eqb (metal i) "Copper" && Py.gt so2_kg_total (PyInt 0))
      air_emissions_flag flags in
  let flags :=
    append_if (Py.lt circularity (PyInt 40)) circularity_flag flags in
  flags.

(** Lines 233-238: the recommendations. *)
Definition rec_recycled_feedstock : string :=
  "Increase recycled feedstock where feasible — reduces primary extraction & supports National Mineral Policy objectives.".
Definition rec_red_mud : string :=
  "Invest in RED MUD neutralization & valorization (cement substitution/pigments/REE recovery) — follow CPCB technical guidelines.".
Definition rec_so2_capture : string :=
  "Install SO₂ capture + contact process to convert to sulphuric acid and supply local fertilizer/chemical plants.".
Definition rec_engage_spcb : string :=
  "Engage with local SPCB/CPCB for authorization and safe handling steps (the tool generates a compliance checklist).".

Definition recommendations (i : input) : list string :=
  let recs := [] in
  let recs := recs ++ [rec_recycled_feedstock] in
  let recs := recs ++ [rec_red_mud] in
  let recs := append_if (String.eqb (metal i) "Copper") rec_so2_capture recs in
  let recs := recs ++ [rec_engage_spcb] in
  recs.

(** The variables of the block that the results panel and the report read. *)
Record outputs : Type := {
  baseline : num;
  red_mud_t : num;
  energy_factor_multiplier : num;
  provenance_energy : string;
  kgco2_per_kg : num;
  transport_emission_per_kg : num;
  transport_kgco2_per_ton : num;
  total_co2_per_tonne : num;
  circularity : num;
  so2_kg_total : num;
  recycle_cost : num;
  flags : list (string * string);
  recs : list string
}.

Definition run_button_block (i : input) : result outputs :=
  '(baseline, red_mud_t) ← choose_baseline i;
  let '(energy_factor_multiplier, provenance_energy) := energy_adjustment i in
  let kgco2_per_kg := baseline * energy_factor_multiplier in
  transport_emission_per_kg ← transport_emission_per_kg_expr i;
  transport_kgco2_per_ton ← transport_kgco2_per_ton_expr i;
  let total_co2_per_tonne := kgco2_per_kg * PyInt 1000 + transport_kgco2_per_ton in
  let circularity := circularity_score i in
  so2_kg_total ← so2_estimate i;
  recycle_cost ← recycle_cost_estimate i;
  let flags := compliance_flags i red_mud_t so2_kg_total circularity in
  let recs := recommendations i in
  mret {|
    baseline := baseline;
    red_mud_t := red_mud_t;
    energy_factor_multiplier := energy_factor_multiplier;
    provenance_energy := provenance_energy;
    kgco2_per_kg := kgco2_per_kg;
    transport_emission_per_kg := transport_emission_per_kg;
    transport_kgco2_per_ton := transport_kgco2_per_ton;
    total_co2_per_tonne := total_co2_per_tonne;
    circularity := circularity;
    so2_kg_total := so2_kg_total;
    recycle_cost := recycle_cost;
    flags := flags;
    recs := recs
  |}.

Local Close Scope py_scope.

(** ** The specification's reading of the form and of the formulas *)

Module Spec.

Inductive Metal : Type := Aluminium | Copper.
Inductive Route : Type := Virgin | Recycled | Mixed.
Inductive Energy : Type := CoalGrid | MixedGrid | RenewableHeavy.
Inductive Eol : Type := Landfill | Recycling | Reuse.
Inductive Storage : Type := Authorized | TemporaryOpen | Untreated.

(** The select-box label that stands for each enumerated value. *)
Definition metal_label (m : Metal) : string :=
  match m with Aluminium => "Aluminium" | Copper => "Copper" end.
Definition route_label (r : Route) : string :=
  match r with Virgin => "Virgin/Raw" | Recycled => "Recycled" | Mixed => "Mixed" end.
Definition energy_label (e : Energy) : string :=
  match e with
  | CoalGrid => "Coal-based grid"
  | MixedGrid => "Mixed grid"
  | RenewableHeavy => "Renewable-heavy"
  end.
Definition eol_label (e : Eol) : string :=
  match e with Landfill => "Landfill" | Recycling => "Recycling" | Reuse => "Reuse" end.
Definition storage_label (s : Storage) : string :=
  match s with
  | Authorized => "Proper authorized storage"
  | TemporaryOpen => "Temporary open storage"
  | Untreated => "Untreated disposal"
  end.

Local Open Scope float_scope.
Abbreviation Z2F := Py.float_of_Z.

(** The named coefficients. *)
Definition virgin (m : Metal) : float :=
  match m with Aluminium => 16.0 | Copper => 8.0 end.
Definition recycled (m : Metal) : float :=
  match m with Aluminium => 4.0 | Copper => 2.0 end.
Definition red_mud_ratio : float := 1.5.
Definition so2_ratio : float := 25.0.
Definition transport_constant : float := 0.05.

(** Step 1: the baseline CO2 factor. *)
Definition baseline (m : Metal) (r : Route) (recycled_pct : Z) : float :=
  match r with
  | Virgin => virgin m
  | Recycled => recycled m
  | Mixed =>
      virgin m * Z2F (100 - recycled_pct) / Z2F 100
      + recycled m * Z2F recycled_pct / Z2F 100
  end.

(** Step 2: the energy multiplier. *)
Definition energy_multiplier (e : Energy) : float :=
  match e with CoalGrid => 1.2 | MixedGrid => 1.0 | RenewableHeavy => 0.8 end.

Definition co2_per_kg (m : Metal) (r : Route) (recycled_pct : Z) (e : Energy) : float :=
  baseline m r recycled_pct * energy_multiplier e.

(** Step 6: the end-of-life bonus and the clamped score. *)
Definition eol_bonus (e : Eol) : Z :=
  match e with Recycling => 30 | Reuse => 40 | Landfill => 0 end.

Definition circularity (recycled_pct : Z) (e : Eol) : num :=
  Py.min (PyInt 100) (PyInt recycled_pct * PyFloat 0.5 + PyInt (eol_bonus e))%py.

(** Step 8: the four rules in their fixed order, each with its condition;
    the flags are the rules whose condition holds. *)
Definition is_authorized (s : Storage) : bool :=
  match s with Authorized => true | _ => false end.
Definition is_aluminium (m : Metal) : bool :=
  match m with Aluminium => true | Copper => false end.
Definition is_copper (m : Metal) : bool :=
  match m with Copper => true | Aluminium => false end.

Definition flag_rules (s : Storage) (m : Metal) (red_mud_t so2_kg circularity : num)
  : list (bool * (string * string)) :=
  [ (negb (is_authorized s), storage_flag);
    (is_aluminium m && Py.gt red_mud_t (PyInt 0), red_mud_flag);
    (is_copper m && Py.gt so2_kg (PyInt 0), air_emissions_flag);
    (Py.lt circularity (PyInt 40), circularity_flag) ].

Definition flags (s : Storage) (m : Metal) (red_mud_t so2_kg circularity : num)
  : list (string * string) :=
  map snd (List.filter fst (flag_rules s m red_mud_t so2_kg circularity)).

(** Step 9: the fixed guidance, with the SO2 entry inserted after the second
    entry for copper. *)
Definition fixed_recommendations : list string :=
  [rec_recycled_feedstock; rec_red_mud; rec_engage_spcb].

Definition recommendations (m : Metal) : list string :=
  firstn 2 fixed_recommendations
  ++ (if is_copper m then [rec_so2_capture] else [])
  ++ skipn 2 fixed_recommendations.

End Spec.

(** ** Display of the two headline metrics (lines 195-196) *)

(** The decimal digits of a natural number, and a string left-padded with
    zeros to [width]. *)
Definition digits (n : Z) : string := NilZero.string_of_uint (N.to_uint (Z.to_N n)).

Definition zero_pad (width : nat) (s : string) : string :=
  String.concat "" (repeat "0" (width - String.length s)) +:+ s.

(** [n / 10^prec] written in fixed notation. *)
Definition fixed_notation (prec : nat) (n : Z) : string :=
  let scale := 10 ^ Z.of_nat prec in
  match prec with
  | O => digits n
  | S _ => digits (n / scale) +:+ "." +:+ zero_pad prec (digits (n mod scale))
  end.

(** The nearest integer to [p / q], ties to even: the rounding of Python's
    float formatting, which works on the exact binary value. *)
Definition round_half_even (p q : Z) : Z :=
  let n := p / q in
  let r := p mod q in
  if (q <? 2 * r) || ((q =? 2 * r) && Z.odd n) then n + 1 else n.

(** The format specification [:.<prec>f]. *)
Definition format_f (prec : nat) (x : num) : string :=
  let sign (s : bool) : string := if s then "-" else "" in
  match Prim2SF (Py.to_float x) with
  | S754_zero s => sign s +:+ fixed_notation prec 0
  | S754_infinity s => sign s +:+ "inf"
  | S754_nan => "nan"
  | S754_finite s m e =>
      let p := Z.pos m * 10 ^ Z.of_nat prec * 2 ^ Z.max e 0 in
      let q := 2 ^ Z.max (- e) 0 in
      sign s +:+ fixed_notation prec (round_half_even p q)
  end.

Definition metric_co2_per_kg (o : outputs) : string :=
  format_f 2 (kgco2_per_kg o) +:+ " kg CO₂e / kg".

Definition metric_co2_per_tonne (o : outputs) : string :=
  format_f 0 (total_co2_per_tonne o) +:+ " kg CO₂e / t (incl transport)".

(** ** Intervals of integers *)

(** The [n] integers from [lo] upwards. *)
Fixpoint Zrange (lo : Z) (n : nat) : list Z :=
  match n with
  | O => []
  | S n' => lo :: Zrange (lo + 1) n'
  end.

(** ** Inputs used in the examples *)

(** The form with another transport quantity, or another recycled share. *)
Definition with_transport_tonnes (i : input) (t : Z) : input :=
  {| metal := metal i; production_route := production_route i;
     recycled_pct := recycled_pct i; energy_source := energy_source i;
     transport_km := transport_km i; transport_tonnes := t;
     eol_option := eol_option i; storage_practice := storage_practice i |}.

Definition with_recycled_pct (i : input) (p : Z) : input :=
  {| metal := metal i; production_route := production_route i;
     recycled_pct := p; energy_source := energy_source i;
     transport_km := transport_km i; transport_tonnes := transport_tonnes i;
     eol_option := eol_option i; storage_practice := storage_practice i |}.

Definition scenario_aluminium : input := {|
  metal := "Aluminium"; production_route := "Mixed"; recycled_pct := 30;
  energy_source := "Coal-based grid"; transport_km := 200; transport_tonnes := 1;
  eol_option := "Recycling"; storage_practice := "Proper authorized storage" |}.

Definition scenario_copper : input := {|
  metal := "Copper"; production_route := "Virgin/Raw"; recycled_pct := 0;
  energy_source := "Renewable-heavy"; transport_km := 0; transport_tonnes := 5;
  eol_option := "Landfill"; storage_practice := "Untreated disposal" |}.

Definition scenario_zero_tonnes : input := with_transport_tonnes scenario_copper 0.

(** The claim of the worked example, read literally: Python's [==] against
    the quoted values. *)
Definition scenario_aluminium_as_claimed (o : outputs) : Prop :=
  Py.eq (kgco2_per_kg o) (PyFloat 14.88) = true /\
  Py.eq (transport_kgco2_per_ton o) (PyInt 10) = true /\
  Py.eq (total_co2_per_tonne o) (PyInt 14890) = true /\
  Py.eq (circularity o) (PyInt 45) = true /\
  Py.eq (red_mud_t o) (PyFloat 1.5) = true /\
  In red_mud_flag (flags o) /\
  ~ In storage_flag (flags o) /\
  ~ In circularity_flag (flags o).

(** The equations that tie the variables of one run together. *)
Record run_equations (i : input) (o : outputs) : Prop := {
  eq_baseline : choose_baseline i = OK (baseline o, red_mud_t o);
  eq_energy : energy_adjustment i = (energy_factor_multiplier o, provenance_energy o);
  eq_kgco2 : kgco2_per_kg o = (baseline o * energy_factor_multiplier o)%py;
  eq_transport_kg : transport_emission_per_kg_expr i = OK (transport_emission_per_kg o);
  eq_transport_ton : transport_kgco2_per_ton_expr i = OK (transport_kgco2_per_ton o);
  eq_total :
    total_co2_per_tonne o = (kgco2_per_kg o * PyInt 1000 + transport_kgco2_per_ton o)%py;
  eq_circularity : circularity o = circularity_score i;
  eq_so2 : so2_estimate i = OK (so2_kg_total o);
  eq_cost : recycle_cost_estimate i = OK (recycle_cost o);
  eq_flags : flags o = compliance_flags i (red_mud_t o) (so2_kg_total o) (circularity o);
  eq_recs : recs o = recommendations i
}.

(** Membership of a given string, or pair of strings, in an explicit list:
    the goal or the hypothesis is settled by comparing the literals. *)
Ltac literal_membership :=
  simpl in *;
  repeat match goal with
    | H : _ \/ _ |- _ => destruct H
    | H : _ /\ _ |- _ => destruct H
    | H : False |- _ => destruct H
    | H : ?x <> ?x |- _ => destruct (H eq_refl)
    | H : _ = _ |- _ => discriminate H
    | |- _ /\ _ => split
    | |- _ <> _ => discriminate
    | |- _ = _ => reflexivity
    | |- _ \/ _ => (left; reflexivity) || right
    end.

(** ** The rest of the results panel (lines 198-199 and 208-214) *)

(** [str(z)] for an integer, as an f-string field without format prints it. *)
Definition str_int (z : Z) : string :=
  if z <? 0 then "-" +:+ digits (- z) else digits z.

(** The [,] option of a format specification: a comma before every complete
    group of three digits of the integer part. *)
Fixpoint group_thousands (s : string) : string :=
  match s with
  | EmptyString => EmptyString
  | String c rest =>
      String c
        (if negb (Nat.eqb (String.length rest) 0)
            && Nat.eqb (String.length rest mod 3) 0
         then "," +:+ group_thousands rest
         else group_thousands rest)
  end.

Definition fixed_notation_grouped (prec : nat) (n : Z) : string :=
  let scale := 10 ^ Z.of_nat prec in
  match prec with
  | O => group_thousands (digits n)
  | S _ =>
      group_thousands (digits (n / scale)) +:+ "." +:+ zero_pad prec (digits (n mod scale))
  end.

(** The format specification [:,.<prec>f]. *)
Definition format_comma_f (prec : nat) (x : num) : string :=
  let sign (s : bool) : string := if s then "-" else "" in
  match Prim2SF (Py.to_float x) with
  | S754_zero s => sign s +:+ fixed_notation_grouped prec 0
  | S754_infinity s => sign s +:+ "inf"
  | S754_nan => "nan"
  | S754_finite s m e =>
      let p := Z.pos m * 10 ^ Z.of_nat prec * 2 ^ Z.max e 0 in
      let q := 2 ^ Z.max (- e) 0 in
      sign s +:+ fixed_notation_grouped prec (round_half_even p q)
  end.

(** Line 198. *)
Definition metric_circularity (o : outputs) : string :=
  format_f 1 (circularity o).

(** Line 199. *)
Definition metric_recycle_cost (i : input) (o : outputs) : string :=
  format_comma_f 2 (recycle_cost o)
  +:+ " (for " +:+ str_int (transport_tonnes i) +:+ " t)".

(** Lines 209-214: the two lines written under the by-product heading. *)
Definition by_product_lines (i : input) (o : outputs) : list string :=
  if String.eqb (metal i) "Aluminium" then
    [ "Red mud estimate: **" +:+ format_f 2 (red_mud_t o)
      +:+ " tonnes** of red mud produced for " +:+ str_int (transport_tonnes i)
      +:+ " t of aluminium (typical literature estimate ~1.5 t red mud / t Al).";
      "Valuable routes: cement substitute, pigment (iron oxides), rare earth recovery (pilot scale). See CPCB red mud guidelines (sources)." ]
  else
    [ "Estimated SO₂ generation: **" +:+ format_f 1 (so2_kg_total o)
      +:+ " kg** for " +:+ str_int (transport_tonnes i)
      +:+ " t of copper smelted (illustrative).";
      "Captured SO₂ can be converted to sulfuric acid (H2SO4) — valuable industrial chemical (fertilizers, chemicals)." ].

(** The float of [x] is exactly [n / 10^prec]: no digit is lost when it is
    printed with [prec] decimals. *)
Definition exact_units (prec : nat) (x : num) (n : Z) : bool :=
  match Prim2SF (Py.to_float x) with
  | S754_zero false => n =? 0
  | S754_finite false m e =>
      Z.pos m * 10 ^ Z.of_nat prec * 2 ^ Z.max e 0 =? n * 2 ^ Z.max (- e) 0
  | _ => false
  end.

(** ** Forms compared *)

(** The integers of the form convert to [float] without rounding. *)
Record ints_convert_exactly (i : input) : Prop := {
  exact_pct : - 2 ^ 53 <= recycled_pct i <= 2 ^ 53;
  exact_km : - 2 ^ 53 <= transport_km i <= 2 ^ 53;
  exact_tonnes : - 2 ^ 53 <= transport_tonnes i <= 2 ^ 53
}.

(** Two forms with the same numbers on which each string comparison of the
    block (lines 127-238) has the same outcome. *)
Record same_tests (i i' : input) : Prop := {
  same_aluminium : String.eqb (metal i) "Aluminium" = String.eqb (metal i') "Aluminium";
  same_copper : String.eqb (metal i) "Copper" = String.eqb (metal i') "Copper";
  same_virgin :
    String.eqb (production_route i) "Virgin/Raw"
    = String.eqb (production_route i') "Virgin/Raw";
  same_recycled :
    String.eqb (production_route i) "Recycled"
    = String.eqb (production_route i') "Recycled";
  same_coal :
    String.eqb (energy_source i) "Coal-based grid"
    = String.eqb (energy_source i') "Coal-based grid";
  same_mixed_grid :
    String.eqb (energy_source i) "Mixed grid" = String.eqb (energy_source i') "Mixed grid";
  same_recycling :
    String.eqb (eol_option i) "Recycling" = String.eqb (eol_option i') "Recycling";
  same_reuse : String.eqb (eol_option i) "Reuse" = String.eqb (eol_option i') "Reuse";
  same_authorized :
    String.eqb (storage_practice i) "Proper authorized storage"
    = String.eqb (storage_practice i') "Proper authorized storage";
  same_pct : recycled_pct i = recycled_pct i';
  same_km : transport_km i = transport_km i';
  same_tonnes : transport_tonnes i = transport_tonnes i'
}.

(** The form with one select box set to another label. *)
Definition with_metal (i : input) (s : string) : input :=
  {| metal := s; production_route := production_route i;
     recycled_pct := recycled_pct i; energy_source := energy_source i;
     transport_km := transport_km i; transport_tonnes := transport_tonnes i;
     eol_option := eol_option i; storage_practice := storage_practice i |}.

Definition with_production_route (i : input) (s : string) : input :=
  {| metal := metal i; production_route := s;
     recycled_pct := recycled_pct i; energy_source := energy_source i;
     transport_km := transport_km i; transport_tonnes := transport_tonnes i;
     eol_option := eol_option i; storage_practice := storage_practice i |}.

Definition with_energy_source (i : input) (s : string) : input :=
  {| metal := metal i; production_route := production_route i;
     recycled_pct := recycled_pct i; energy_source := s;
     transport_km := transport_km i; transport_tonnes := transport_tonnes i;
     eol_option := eol_option i; storage_practice := storage_practice i |}.

Definition with_eol_option (i : input) (s : string) : input :=
  {| metal := metal i; production_route := production_route i;
     recycled_pct := recycled_pct i; energy_source := energy_source i;
     transport_km := transport_km i; transport_tonnes := transport_tonnes i;
     eol_option := s; storage_practice := storage_practice i |}.

Definition with_storage_practice (i : input) (s : string) : input :=
  {| metal := metal i; production_route := production_route i;
     recycled_pct := recycled_pct i; energy_source := energy_source i;
     transport_km := transport_km i; transport_tonnes := transport_tonnes i;
     eol_option := eol_option i; storage_practice := s |}.

(** The labels the block cannot tell from the one given: a route other than
    the two it tests is handled as Mixed, an energy source other than the two
    it tests as Renewable-heavy, an end-of-life option other than the two it
    tests as Landfill. *)
Definition default_labels (i : input) : input :=
  {| metal := metal i;
     production_route :=
       if String.eqb (production_route i) "Virgin/Raw" then "Virgin/Raw"
       else if String.eqb (production_route i) "Recycled" then "Recycled"
       else "Mixed";
     recycled_pct := recycled_pct i;
     energy_source :=
       if String.eqb (energy_source i) "Coal-based grid" then "Coal-based grid"
       else if String.eqb (energy_source i) "Mixed grid" then "Mixed grid"
       else "Renewable-heavy";
     transport_km := transport_km i; transport_tonnes := transport_tonnes i;
     eol_option :=
       if String.eqb (eol_option i) "Recycling" then "Recycling"
       else if String.eqb (eol_option i) "Reuse" then "Reuse"
       else "Landfill";
     storage_practice := storage_practice i |}.

(** The recycling cost per tonne in whole dollars. *)
Definition cost_per_tonne (m : Spec.Metal) : Z :=
  match m with Spec.Aluminium => 200 | Spec.Copper => 300 end.

(** ** The block as statements over the module's namespace

    The variables of the block are module-level names: each assignment binds
    a name in the namespace the script runs in, and each use reads it back.
    Here the block is embedded statement by statement over that namespace, so
    that what a run leaves behind, and what it read from what was there
    before, can be stated.  The eight form values are bound by lines 109-118
    of the same run and never rebound by the block; they are passed as [i]. *)

Module Script.

(** What a name of the script can be bound to. *)
Inductive value : Type :=
  | VNum (x : num)
  | VStr (s : string)
  | VDict (d : gmap string float)
  | VFlags (l : list (string * string))
  | VList (l : list string).

(** How a statement can fail: an exception of the arithmetic or of a
    dictionary lookup; the use of an unbound name ([NameError]); or the use
    of a name bound to a value of another type than the block binds to it.
    What Python does in that last case (a [TypeError], an [AttributeError],
    or an operation of that other type) is not modelled further: the run
    counts as failed at that name. *)
Inductive error : Type :=
  | Builtin (e : exn)
  | NameError (name : string)
  | WrongType (name : string).

Abbreviation namespace := (gmap string value).

(** A statement: it ends normally or raises, and leaves a namespace. *)
Definition exec (A : Type) : Type := namespace -> (A + error) * namespace.

#[global] Instance exec_ret : MRet exec := fun A a ns => (inl a, ns).

#[global] Instance exec_bind : MBind exec := fun A B k m ns =>
  match m ns with
  | (inl a, ns') => k a ns'
  | (inr e, ns') => (inr e, ns')
  end.

Definition raise {A : Type} (e : error) : exec A := fun ns => (inr e, ns).

(** The value or the exception of an expression that touches no name. *)
Definition lift {A : Type} (r : result A) : exec A :=
  match r with
  | OK a => mret a
  | Raise e => raise (Builtin e)
  end.

(** The use of a name. *)
Definition load (name : string) : exec value := fun ns =>
  match ns !! name with
  | Some v => (inl v, ns)
  | None => (inr (NameError name), ns)
  end.

(** [name = v]. *)
Definition assign (name : string) (v : value) : exec unit := fun ns =>
  (inl tt, <[name := v]> ns).

(** A name used as a number. *)
Definition load_num (name : string) : exec num :=
  v ← load name;
  match v with
  | VNum x => mret x
  | _ => raise (WrongType name)
  end.

(** [name[key]]. *)
Definition subscript (name key : string) : exec num :=
  v ← load name;
  match v with
  | VDict d => lift (Py.getitem d key)
  | _ => raise (WrongType name)
  end.

(** [name.append(x)] on the list of flags and on a list of strings.  The
    list is held by this one name, so the update in place is an update of
    the binding. *)
Definition append_flag (name : string) (x : string * string) : exec unit :=
  v ← load name;
  match v with
  | VFlags l => assign name (VFlags (l ++ [x]))
  | _ => raise (WrongType name)
  end.

Definition append_str (name : string) (x : string) : exec unit :=
  v ← load name;
  match v with
  | VList l => assign name (VList (l ++ [x]))
  | _ => raise (WrongType name)
  end.

Definition pass : exec unit := mret tt.

Local Open Scope py_scope.

(** Lines 81-96. *)
Definition assign_default_factors : exec unit :=
  assign "default_factors" (VDict default_factors).

(** Lines 127-145. *)
Definition choose_baseline (i : input) : exec unit :=
  if String.eqb (metal i) "Aluminium" then
    (if String.eqb (production_route i) "Virgin/Raw" then
       v ← subscript "default_factors" "aluminium_virgin_kgco2_per_kg";
       assign "baseline" (VNum v)
     else if String.eqb (production_route i) "Recycled" then
       v ← subscript "default_factors" "aluminium_recycled_kgco2_per_kg";
       assign "baseline" (VNum v)
     else
       v ← subscript "default_factors" "aluminium_virgin_kgco2_per_kg";
       a ← lift (v * (PyInt 100 - PyInt (recycled_pct i)) / PyInt 100);
       r ← subscript "default_factors" "aluminium_recycled_kgco2_per_kg";
       b ← lift (r * PyInt (recycled_pct i) / PyInt 100);
       assign "baseline" (VNum (a + b)));;
    ratio ← subscript "default_factors" "red_mud_t_per_t_aluminium";
    assign "red_mud_t" (VNum (ratio * PyInt (transport_tonnes i)))
  else
    (if String.eqb (production_route i) "Virgin/Raw" then
       v ← subscript "default_factors" "copper_virgin_kgco2_per_kg";
       assign "baseline" (VNum v)
     else if String.eqb (production_route i) "Recycled" then
       v ← subscript "default_factors" "copper_recycled_kgco2_per_kg";
       assign "baseline" (VNum v)
     else
       v ← subscript "default_factors" "copper_virgin_kgco2_per_kg";
       a ← lift (v * (PyInt 100 - PyInt (recycled_pct i)) / PyInt 100);
       r ← subscript "default_factors" "copper_recycled_kgco2_per_kg";
       b ← lift (r * PyInt (recycled_pct i) / PyInt 100);
       assign "baseline" (VNum (a + b)));;
    assign "red_mud_t" (VNum (PyInt 0)).

(** Lines 148-156. *)
Definition energy_adjustment (i : input) : exec unit :=
  if String.eqb (energy_source i) "Coal-based grid" then
    assign "energy_factor_multiplier" (VNum (PyFloat 1.2));;
    assign "provenance_energy"
      (VStr "Assumed national average coal-heavy grid factor (illustrative).")
  else if String.eqb (energy_source i) "Mixed grid" then
    assign "energy_factor_multiplier" (VNum (PyFloat 1.0));;
    assign "provenance_energy" (VStr "Assumed mixed grid emissions factor (illustrative).")
  else
    assign "energy_factor_multiplier" (VNum (PyFloat 0.8));;
    assign "provenance_energy" (VStr "Assumed renewable-heavy grid factor (illustrative).").

(** Line 159. *)
Definition assign_kgco2_per_kg : exec unit :=
  b ← load_num "baseline";
  m ← load_num "energy_factor_multiplier";
  assign "kgco2_per_kg" (VNum (b * m)).

(** Line 161. *)
Definition assign_transport_emission_per_kg (i : input) : exec unit :=
  t ← subscript "default_factors" "transport_kgco2_per_tkm";
  quotient ← lift (PyInt (transport_tonnes i) / guarded_divisor i);
  v ← lift (t * PyInt (transport_km i) * quotient / PyInt (transport_tonnes i));
  assign "transport_emission_per_kg" (VNum v).

(** Line 163. *)
Definition assign_transport_kgco2_per_ton (i : input) : exec unit :=
  t ← subscript "default_factors" "transport_kgco2_per_tkm";
  assign "transport_kgco2_per_ton" (VNum (t * PyInt (transport_km i))).

(** Line 165. *)
Definition assign_total_co2_per_tonne : exec unit :=
  k ← load_num "kgco2_per_kg";
  t ← load_num "transport_kgco2_per_ton";
  assign "total_co2_per_tonne" (VNum (k * PyInt 1000 + t)).

(** Lines 168-173. *)
Definition assign_circularity (i : input) : exec unit :=
  assign "circularity" (VNum (PyInt (recycled_pct i) * PyFloat 0.5));;
  (if String.eqb (eol_option i) "Recycling" then
     c ← load_num "circularity"; assign "circularity" (VNum (c + PyInt 30))
   else if String.eqb (eol_option i) "Reuse" then
     c ← load_num "circularity"; assign "circularity" (VNum (c + PyInt 40))
   else pass);;
  c ← load_num "circularity";
  assign "circularity" (VNum (Py.min (PyInt 100) c)).

(** Lines 176-179. *)
Definition assign_so2_kg_total (i : input) : exec unit :=
  assign "so2_kg_total" (VNum (PyInt 0));;
  if String.eqb (metal i) "Copper" then
    ratio ← subscript "default_factors" "so2_kg_per_t_copper";
    assign "so2_kg_total" (VNum (ratio * PyInt (transport_tonnes i)))
  else pass.

(** Lines 182-187. *)
Definition assign_recycle_cost (i : input) : exec unit :=
  if String.eqb (metal i) "Aluminium" then
    c ← subscript "default_factors" "recycle_cost_usd_per_t_aluminium";
    assign "recycle_cost" (VNum (c * PyInt (transport_tonnes i)))
  else if String.eqb (metal i) "Copper" then
    c ← subscript "default_factors" "recycle_cost_usd_per_t_copper";
    assign "recycle_cost" (VNum (c * PyInt (transport_tonnes i)))
  else assign "recycle_cost" (VNum (PyInt 0)).

(** Lines 219-227.  [and] reads its right operand only when the left one
    holds. *)
Definition build_flags (i : input) : exec unit :=
  assign "flags" (VFlags []);;
  (if negb (String.eqb (storage_practice i) "Proper authorized storage")
   then append_flag "flags" storage_flag else pass);;
  (if String.eqb (metal i) "Aluminium" then
     rm ← load_num "red_mud_t";
     if Py.gt rm (PyInt 0) then append_flag "flags" red_mud_flag else pass
   else pass);;
  (if String.eqb (metal i) "Copper" then
     so2 ← load_num "so2_kg_total";
     if Py.gt so2 (PyInt 0) then append_flag "flags" air_emissions_flag else pass
   else pass);;
  c ← load_num "circularity";
  if Py.lt c (PyInt 40) then append_flag "flags" circularity_flag else pass.

(** Lines 233-238. *)
Definition build_recs (i : input) : exec unit :=
  assign "recs" (VList []);;
  append_str "recs" rec_recycled_feedstock;;
  append_str "recs" rec_red_mud;;
  (if String.eqb (metal i) "Copper" then append_str "recs" rec_so2_capture else pass);;
  append_str "recs" rec_engage_spcb.

(** The block, in source order (lines 125-238).  The calls that render
    (lines 192-217, 228-232, 239-240) are left out, and with them the names
    they bind ([colA], [colB], [breakdown_df], [f], [r]): the block reads
    none of these, and each name the rendering reads is bound by then. *)
Definition run_button_block (i : input) : exec unit :=
  assign "missing_info_notes" (VList []);;
  choose_baseline i;;
  energy_adjustment i;;
  assign_kgco2_per_kg;;
  assign_transport_emission_per_kg i;;
  assign_transport_kgco2_per_ton i;;
  assign_total_co2_per_tonne;;
  assign_circularity i;;
  assign_so2_kg_total i;;
  assign_recycle_cost i;;
  build_flags i;;
  build_recs i.

(** One run of the script with the form submitted: the table is bound, then
    the block runs. *)
Definition run (i : input) : exec unit :=
  assign_default_factors;; run_button_block i.

Local Close Scope py_scope.

(** The outputs held by a namespace, when the thirteen names are bound to
    values of their types. *)
Definition num_of (ns : namespace) (name : string) : option num :=
  match ns !! name with
  | Some (VNum x) => Some x
  | _ => None
  end.

Definition str_of (ns : namespace) (name : string) : option string :=
  match ns !! name with
  | Some (VStr s) => Some s
  | _ => None
  end.

Definition flags_of (ns : namespace) (name : string) : option (list (string * string)) :=
  match ns !! name with
  | Some (VFlags l) => Some l
  | _ => None
  end.

Definition list_of (ns : namespace) (name : string) : option (list string) :=
  match ns !! name with
  | Some (VList l) => Some l
  | _ => None
  end.

Definition outputs_of (ns : namespace) : option outputs :=
  b ← num_of ns "baseline";
  rm ← num_of ns "red_mud_t";
  mult ← num_of ns "energy_factor_multiplier";
  prov ← str_of ns "provenance_energy";
  kg ← num_of ns "kgco2_per_kg";
  tkg ← num_of ns "transport_emission_per_kg";
  tton ← num_of ns "transport_kgco2_per_ton";
  total ← num_of ns "total_co2_per_tonne";
  c ← num_of ns "circularity";
  so2 ← num_of ns "so2_kg_total";
  cost ← num_of ns "recycle_cost";
  fl ← flags_of ns "flags";
  rc ← list_of ns "recs";
  Some {|
    baseline := b; red_mud_t := rm; energy_factor_multiplier := mult;
    provenance_energy := prov; kgco2_per_kg := kg;
    transport_emission_per_kg := tkg; transport_kgco2_per_ton := tton;
    total_co2_per_tonne := total; circularity := c; so2_kg_total := so2;
    recycle_cost := cost; flags := fl; recs := rc
  |}.

(** What a completed run of the block has bound: the names of the block,
    in the order of their last assignment, over the namespace it started
    in. *)
Definition store (o : outputs) (ns : namespace) : namespace :=
  <["recs" := VList (recs o)]>
  (<["flags" := VFlags (flags o)]>
  (<["recycle_cost" := VNum (recycle_cost o)]>
  (<["so2_kg_total" := VNum (so2_kg_total o)]>
  (<["circularity" := VNum (circularity o)]>
  (<["total_co2_per_tonne" := VNum (total_co2_per_tonne o)]>
  (<["transport_kgco2_per_ton" := VNum (transport_kgco2_per_ton o)]>
  (<["transport_emission_per_kg" := VNum (transport_emission_per_kg o)]>
  (<["kgco2_per_kg" := VNum (kgco2_per_kg o)]>
  (<["provenance_energy" := VStr (provenance_energy o)]>
  (<["energy_factor_multiplier" := VNum (energy_factor_multiplier o)]>
  (<["red_mud_t" := VNum (red_mud_t o)]>
  (<["baseline" := VNum (baseline o)]>
  (<["missing_info_notes" := VList []]> ns))))))))))))).

(** A namespace holding bindings of an earlier, different run: numbers
    under the names the block computes, and a string where it builds its
    list of flags. *)
Definition stale_namespace : namespace :=
  <["flags" := VStr "stale"]>
  (<["circularity" := VNum (PyInt 99)]>
  (<["energy_factor_multiplier" := VNum (PyInt 2)]>
  (<["baseline" := VNum (PyInt 7)]> ∅))).

End Script.

(** ** Auxiliary facts *)

(** Every key the block reads is in the table. *)
Lemma factor_aluminium_virgin :
  factor "aluminium_virgin_kgco2_per_kg" = OK (PyFloat 16.0).
Proof. vm_compute. reflexivity. Qed.

Lemma factor_aluminium_recycled :
  factor "aluminium_recycled_kgco2_per_kg" = OK (PyFloat 4.0).
Proof. vm_compute. reflexivity. Qed.

Lemma factor_copper_virgin :
  factor "copper_virgin_kgco2_per_kg" = OK (PyFloat 8.0).
Proof. vm_compute. reflexivity. Qed.

Lemma factor_copper_recycled :
  factor "copper_recycled_kgco2_per_kg" = OK (PyFloat 2.0).
Proof. vm_compute. reflexivity. Qed.

Lemma factor_red_mud : factor "red_mud_t_per_t_aluminium" = OK (PyFloat 1.5).
Proof. vm_compute. reflexivity. Qed.

Lemma factor_so2 : factor "so2_kg_per_t_copper" = OK (PyFloat 25.0).
Proof. vm_compute. reflexivity. Qed.

Lemma factor_transport : factor "transport_kgco2_per_tkm" = OK (PyFloat 0.05).
Proof. vm_compute. reflexivity. Qed.

Lemma factor_cost_aluminium :
  factor "recycle_cost_usd_per_t_aluminium" = OK (PyFloat 200.0).
Proof. vm_compute. reflexivity. Qed.

Lemma factor_cost_copper :
  factor "recycle_cost_usd_per_t_copper" = OK (PyFloat 300.0).
Proof. vm_compute. reflexivity. Qed.

Create Rewrite HintDb factors.
#[local] Hint Rewrite factor_aluminium_virgin factor_aluminium_recycled
  factor_copper_virgin factor_copper_recycled factor_red_mud factor_so2
  factor_transport factor_cost_aluminium factor_cost_copper : factors.

(** *** The error monad *)

Lemma bind_OK {A B : Type} (a : A) (k : A -> result B) : (OK a ≫= k) = k a.
Proof. reflexivity. Qed.

Lemma bind_OK_inv {A B : Type} (m : result A) (k : A -> result B) (b : B) :
  (m ≫= k) = OK b -> exists a, m = OK a /\ k a = OK b.
Proof. destruct m as [a | e]; [eauto | discriminate]. Qed.

(** A division succeeds exactly when its divisor is not zero. *)
Lemma truediv_OK_iff (x y : num) :
  (exists q, Py.truediv x y = OK q) <-> Py.is_zero y = false.
Proof.
  unfold Py.truediv. destruct (Py.is_zero y); split.
  - intros [q Hq]. discriminate.
  - discriminate.
  - reflexivity.
  - intros _. eexists. reflexivity.
Qed.

Lemma truediv_nonzero (x y : num) :
  Py.is_zero y = false ->
  Py.truediv x y = OK (PyFloat (PrimFloat.div (Py.to_float x) (Py.to_float y))).
Proof. unfold Py.truediv. intros ->. reflexivity. Qed.


Lemma is_zero_PyInt (z : Z) : z <> 0 -> Py.is_zero (PyInt z) = false.
Proof. intros Hz. apply Z.eqb_neq. exact Hz. Qed.

(** *** Checking a property on every integer of an interval *)

Lemma in_Zrange (n : nat) (lo z : Z) :
  lo <= z < lo + Z.of_nat n -> In z (Zrange lo n).
Proof.
  revert lo. induction n as [| n IH]; intros lo Hz; [lia |].
  simpl. destruct (Z.eq_dec lo z) as [Heq | Hne]; [left; exact Heq | right].
  apply IH. lia.
Qed.

Lemma forallb_Zrange (f : Z -> bool) (lo n : Z) :
  forallb f (Zrange lo (Z.to_nat n)) = true ->
  forall z, lo <= z < lo + n -> f z = true.
Proof.
  intros Hall z Hz. rewrite forallb_forall in Hall. apply Hall, in_Zrange. lia.
Qed.

Lemma map_eq_pointwise {A B : Type} (f g : A -> B) (l : list A) :
  map f l = map g l -> forall x, In x l -> f x = g x.
Proof.
  induction l as [| a l IH]; simpl; intros Heq x Hx.
  - destruct Hx.
  - injection Heq as Ha Hl. destruct Hx as [<- | Hx]; [exact Ha | exact (IH Hl x Hx)].
Qed.

Lemma map_eq_Zrange {B : Type} (f g : Z -> B) (lo n : Z) :
  map f (Zrange lo (Z.to_nat n)) = map g (Zrange lo (Z.to_nat n)) ->
  forall z, lo <= z < lo + n -> f z = g z.
Proof. intros Heq z Hz. apply (map_eq_pointwise f g _ Heq), in_Zrange. lia. Qed.

(** *** The labels of the select boxes *)

Lemma metal_label_exists (i : input) :
  valid i -> exists m, metal i = Spec.metal_label m.
Proof.
  intros [Hm _ _ _ _ _ _ _]. simpl in Hm.
  destruct Hm as [Hm | [Hm | []]];
    [exists Spec.Aluminium | exists Spec.Copper]; symmetry; exact Hm.
Qed.

Lemma route_label_exists (i : input) :
  valid i -> exists r, production_route i = Spec.route_label r.
Proof.
  intros [_ Hr _ _ _ _ _ _]. simpl in Hr.
  destruct Hr as [Hr | [Hr | [Hr | []]]];
    [exists Spec.Virgin | exists Spec.Recycled | exists Spec.Mixed]; symmetry; exact Hr.
Qed.

Lemma energy_label_exists (i : input) :
  valid i -> exists e, energy_source i = Spec.energy_label e.
Proof.
  intros [_ _ _ He _ _ _ _]. simpl in He.
  destruct He as [He | [He | [He | []]]];
    [exists Spec.CoalGrid | exists Spec.MixedGrid | exists Spec.RenewableHeavy];
    symmetry; exact He.
Qed.

Lemma eol_label_exists (i : input) :
  valid i -> exists e, eol_option i = Spec.eol_label e.
Proof.
  intros [_ _ _ _ _ _ He _]. simpl in He.
  destruct He as [He | [He | [He | []]]];
    [exists Spec.Landfill | exists Spec.Recycling | exists Spec.Reuse];
    symmetry; exact He.
Qed.

Lemma storage_label_exists (i : input) :
  valid i -> exists s, storage_practice i = Spec.storage_label s.
Proof.
  intros [_ _ _ _ _ _ _ Hs]. simpl in Hs.
  destruct Hs as [Hs | [Hs | [Hs | []]]];
    [exists Spec.Authorized | exists Spec.TemporaryOpen | exists Spec.Untreated];
    symmetry; exact Hs.
Qed.

(** *** The paragraphs of the block, one by one *)

(** [baseline] and [red_mud_t] for the labels of the form. *)
Lemma choose_baseline_labels (i : input) (m : Spec.Metal) (r : Spec.Route) :
  metal i = Spec.metal_label m ->
  production_route i = Spec.route_label r ->
  choose_baseline i =
    OK (PyFloat (Spec.baseline m r (recycled_pct i)),
        match m with
        | Spec.Aluminium => (PyFloat Spec.red_mud_ratio * PyInt (transport_tonnes i))%py
        | Spec.Copper => PyInt 0
        end).
Proof.
  intros Hm Hr. unfold choose_baseline. rewrite Hm, Hr.
  destruct m, r; simpl String.eqb; cbv iota;
    autorewrite with factors; vm_compute; reflexivity.
Qed.

(** The baseline paragraph never fails, whatever the strings are: its only
    divisions are by the literal 100. *)
Lemma choose_baseline_total (i : input) : exists b rm, choose_baseline i = OK (b, rm).
Proof.
  unfold choose_baseline.
  destruct (String.eqb (metal i) "Aluminium");
    destruct (String.eqb (production_route i) "Virgin/Raw");
    try destruct (String.eqb (production_route i) "Recycled");
    autorewrite with factors; rewrite ?bind_OK;
    rewrite ?(truediv_nonzero _ (PyInt 100)) by reflexivity;
    rewrite ?bind_OK; autorewrite with factors; rewrite ?bind_OK;
    rewrite ?(truediv_nonzero _ (PyInt 100)) by reflexivity;
    rewrite ?bind_OK; eauto.
Qed.

Lemma energy_adjustment_labels (i : input) (e : Spec.Energy) :
  energy_source i = Spec.energy_label e ->
  fst (energy_adjustment i) = PyFloat (Spec.energy_multiplier e).
Proof.
  intros He. unfold energy_adjustment. rewrite He. destruct e; reflexivity.
Qed.

Lemma guarded_divisor_nonzero (i : input) : Py.is_zero (guarded_divisor i) = false.
Proof.
  unfold guarded_divisor, Py.gt, Py.lt.
  destruct (0 <? transport_tonnes i) eqn:Hpos.
  - apply is_zero_PyInt. apply Z.ltb_lt in Hpos. lia.
  - reflexivity.
Qed.

Lemma transport_emission_per_kg_value (i : input) :
  transport_tonnes i <> 0 ->
  transport_emission_per_kg_expr i =
    OK (PyFloat
          (0.05 * Spec.Z2F (transport_km i)
           * (Spec.Z2F (transport_tonnes i) / Py.to_float (guarded_divisor i))
           / Spec.Z2F (transport_tonnes i))%float).
Proof.
  intros Ht. unfold transport_emission_per_kg_expr.
  rewrite factor_transport, bind_OK.
  rewrite (truediv_nonzero _ (guarded_divisor i)) by apply guarded_divisor_nonzero.
  rewrite bind_OK.
  rewrite truediv_nonzero by (apply is_zero_PyInt; exact Ht).
  reflexivity.
Qed.


Lemma transport_kgco2_per_ton_value (i : input) :
  transport_kgco2_per_ton_expr i = OK (PyFloat 0.05 * PyInt (transport_km i))%py.
Proof.
  unfold transport_kgco2_per_ton_expr. rewrite factor_transport. reflexivity.
Qed.

Lemma so2_estimate_value (i : input) :
  so2_estimate i =
    OK (if String.eqb (metal i) "Copper"
        then (PyFloat 25.0 * PyInt (transport_tonnes i))%py else PyInt 0).
Proof.
  unfold so2_estimate. destruct (String.eqb (metal i) "Copper").
  - rewrite factor_so2. reflexivity.
  - reflexivity.
Qed.

Lemma recycle_cost_estimate_total (i : input) :
  exists c, recycle_cost_estimate i = OK c.
Proof.
  unfold recycle_cost_estimate.
  destruct (String.eqb (metal i) "Aluminium");
    [| destruct (String.eqb (metal i) "Copper")];
    autorewrite with factors; rewrite ?bind_OK; eauto.
Qed.

(** *** The whole block *)

(** A run that returns satisfies the block's equations. *)
Lemma run_button_block_equations (i : input) (o : outputs) :
  run_button_block i = OK o -> run_equations i o.
Proof.
  unfold run_button_block. intros Hrun.
  apply bind_OK_inv in Hrun as [[b rm] [Hb Hrun]].
  destruct (energy_adjustment i) as [mult prov] eqn:He.
  apply bind_OK_inv in Hrun as [tkg [Htkg Hrun]].
  apply bind_OK_inv in Hrun as [tton [Htton Hrun]].
  apply bind_OK_inv in Hrun as [so2 [Hso2 Hrun]].
  apply bind_OK_inv in Hrun as [cost [Hcost Hrun]].
  injection Hrun as <-. constructor; simpl; auto.
Qed.

(** The block returns as soon as the tonnage is not zero. *)
Lemma run_button_block_total (i : input) :
  transport_tonnes i <> 0 -> exists o, run_button_block i = OK o.
Proof.
  intros Ht. unfold run_button_block.
  destruct (choose_baseline_total i) as (b & rm & ->).
  destruct (recycle_cost_estimate_total i) as [c Hc].
  rewrite bind_OK. destruct (energy_adjustment i) as [mult prov].
  rewrite (transport_emission_per_kg_value i Ht), bind_OK.
  rewrite transport_kgco2_per_ton_value, bind_OK.
  rewrite so2_estimate_value, bind_OK.
  rewrite Hc, bind_OK.
  eexists. reflexivity.
Qed.

Lemma valid_tonnes_nonzero (i : input) : valid i -> transport_tonnes i <> 0.
Proof. intros [_ _ _ _ _ Ht _ _]. lia. Qed.

Lemma run_button_block_valid (i : input) :
  valid i -> exists o, run_button_block i = OK o /\ run_equations i o.
Proof.
  intros Hv.
  destruct (run_button_block_total i (valid_tonnes_nonzero i Hv)) as [o Ho].
  exists o. split; [exact Ho | exact (run_button_block_equations i o Ho)].
Qed.

(** ** The properties of the estimator *)

(** C10.  When [transport_tonnes >= 1] no division of the block has a zero
    divisor: neither the literal 100 of the interpolation, nor the guarded
    divisor of the inner quotient, nor [transport_tonnes] itself, which the
    per-kg transport expression divides by outside the guard.  The expression
    therefore returns a value and the whole block returns its outputs.  The
    form integers are taken in the range that converts to [float] exactly,
    where the arithmetic of [Py] is Python's and no conversion overflows;
    every valid form is in that range. *)
Theorem no_division_by_zero (i : input) :
  ints_convert_exactly i ->
  1 <= transport_tonnes i ->
  Py.is_zero (PyInt 100) = false /\
  Py.is_zero (guarded_divisor i) = false /\
  Py.is_zero (PyInt (transport_tonnes i)) = false /\
  (exists v, transport_emission_per_kg_expr i = OK v) /\
  (exists o, run_button_block i = OK o).
Proof.
  intros _ Ht. assert (Hnz : transport_tonnes i <> 0) by lia.
  split; [reflexivity |].
  split; [apply guarded_divisor_nonzero |].
  split; [apply is_zero_PyInt; exact Hnz |].
  split.
  - rewrite (transport_emission_per_kg_value i Hnz). eauto.
  - apply run_button_block_total. exact Hnz.
Qed.

Lemma no_division_by_zero_witness :
  ints_convert_exactly scenario_aluminium /\
  1 <= transport_tonnes scenario_aluminium /\
  Py.is_zero (PyInt 100) = false /\
  Py.is_zero (guarded_divisor scenario_aluminium) = false /\
  Py.is_zero (PyInt (transport_tonnes scenario_aluminium)) = false /\
  (exists v, transport_emission_per_kg_expr scenario_aluminium = OK v) /\
  (exists o, run_button_block scenario_aluminium = OK o).
Proof.
  split; [constructor; simpl; lia |].
  split; [simpl; lia |].
  apply (no_division_by_zero scenario_aluminium);
    [constructor; simpl; lia | simpl; lia].
Defined.

(** Outside that precondition the unguarded division does fail: with a
    tonnage of zero the block raises [ZeroDivisionError]. *)
Lemma zero_tonnes_raises :
  run_button_block scenario_zero_tonnes = Raise ZeroDivisionError.
Proof. vm_compute. reflexivity. Qed.

(** *** The run of the script over its namespace

    The statements of [Script] are related to the paragraphs of the
    estimator: each leaves the value its paragraph returns bound to its
    name, over whatever the namespace held. *)

Lemma exec_bind_inl {A B : Type} (m : Script.exec A) (k : A -> Script.exec B)
    (ns ns' : Script.namespace) (a : A) :
  m ns = (inl a, ns') -> (m ≫= k) ns = k a ns'.
Proof. intros H. unfold mbind, Script.exec_bind. rewrite H. reflexivity. Qed.

Lemma load_num_bound (name : string) (x : num) (ns : Script.namespace) :
  ns !! name = Some (Script.VNum x) -> Script.load_num name ns = (inl x, ns).
Proof.
  intros H. unfold Script.load_num, Script.load, mbind, Script.exec_bind.
  rewrite H. reflexivity.
Qed.

Lemma subscript_bound (name key : string) (d : gmap string float) (ns : Script.namespace) :
  ns !! name = Some (Script.VDict d) ->
  Script.subscript name key ns = Script.lift (Py.getitem d key) ns.
Proof.
  intros H. unfold Script.subscript, Script.load, mbind, Script.exec_bind.
  rewrite H. reflexivity.
Qed.

Lemma subscript_factor (key : string) (v : num) (ns : Script.namespace) :
  ns !! "default_factors" = Some (Script.VDict default_factors) ->
  factor key = OK v ->
  Script.subscript "default_factors" key ns = (inl v, ns).
Proof.
  intros H Hk. rewrite (subscript_bound _ _ _ _ H).
  change (Py.getitem default_factors key) with (factor key). rewrite Hk. reflexivity.
Qed.

Lemma lift_OK {A : Type} (r : result A) (a : A) (ns : Script.namespace) :
  r = OK a -> Script.lift r ns = (inl a, ns).
Proof. intros ->. reflexivity. Qed.

Lemma assign_eq (name : string) (v : Script.value) (ns : Script.namespace) :
  Script.assign name v ns = (inl tt, <[name := v]> ns).
Proof. reflexivity. Qed.

Lemma append_flag_bound (name : string) (x : string * string)
    (l : list (string * string)) (ns : Script.namespace) :
  ns !! name = Some (Script.VFlags l) ->
  Script.append_flag name x ns = (inl tt, <[name := Script.VFlags (l ++ [x])]> ns).
Proof.
  intros H. unfold Script.append_flag, Script.load, mbind, Script.exec_bind.
  rewrite H. reflexivity.
Qed.

Lemma append_str_bound (name x : string) (l : list string) (ns : Script.namespace) :
  ns !! name = Some (Script.VList l) ->
  Script.append_str name x ns = (inl tt, <[name := Script.VList (l ++ [x])]> ns).
Proof.
  intros H. unfold Script.append_str, Script.load, mbind, Script.exec_bind.
  rewrite H. reflexivity.
Qed.

(** A lookup in a namespace built by assignments. *)
Ltac lookup_bound :=
  repeat (rewrite lookup_insert_ne by discriminate);
  first [ apply lookup_insert_eq | eassumption ].

(** The outcome of a statement that ends normally, read off step by step. *)
Ltac exec_atomic :=
  first
    [ apply assign_eq
    | apply load_num_bound; lookup_bound
    | apply subscript_factor; [lookup_bound | autorewrite with factors; reflexivity]
    | apply append_flag_bound; lookup_bound
    | apply append_str_bound; lookup_bound
    | apply lift_OK; eassumption
    | apply lift_OK; apply truediv_nonzero; reflexivity
    | reflexivity ].

Ltac exec_stmt :=
  cbv beta iota delta [negb];
  lazymatch goal with
  | |- (?m ≫= ?k) ?ns = _ =>
      erewrite (exec_bind_inl m k ns) by exec_stmt; exec_stmt
  | |- (if ?b then _ else _) _ = _ =>
      lazymatch goal with H : b = _ |- _ => rewrite H end; exec_stmt
  | |- _ => exec_atomic
  end.

Lemma script_choose_baseline (i : input) (ns : Script.namespace) (b rm : num) :
  ns !! "default_factors" = Some (Script.VDict default_factors) ->
  choose_baseline i = OK (b, rm) ->
  Script.choose_baseline i ns
  = (inl tt, <["red_mud_t" := Script.VNum rm]> (<["baseline" := Script.VNum b]> ns)).
Proof.
  intros Ht Hb. unfold Script.choose_baseline. unfold choose_baseline in Hb.
  destruct (String.eqb (metal i) "Aluminium");
    destruct (String.eqb (production_route i) "Virgin/Raw");
    try destruct (String.eqb (production_route i) "Recycled");
    autorewrite with factors in Hb; rewrite ?bind_OK in Hb;
    rewrite ?(truediv_nonzero _ (PyInt 100)) in Hb by reflexivity;
    rewrite ?bind_OK in Hb; autorewrite with factors in Hb; rewrite ?bind_OK in Hb;
    rewrite ?(truediv_nonzero _ (PyInt 100)) in Hb by reflexivity;
    rewrite ?bind_OK in Hb; autorewrite with factors in Hb; rewrite ?bind_OK in Hb;
    injection Hb as <- <-; exec_stmt.
Qed.

Lemma script_energy_adjustment (i : input) (ns : Script.namespace) (mult : num) (prov : string) :
  energy_adjustment i = (mult, prov) ->
  Script.energy_adjustment i ns
  = (inl tt, <["provenance_energy" := Script.VStr prov]>
               (<["energy_factor_multiplier" := Script.VNum mult]> ns)).
Proof.
  intros He. unfold Script.energy_adjustment. unfold energy_adjustment in He.
  destruct (String.eqb (energy_source i) "Coal-based grid");
    [| destruct (String.eqb (energy_source i) "Mixed grid")];
    injection He as <- <-; exec_stmt.
Qed.

Lemma script_kgco2_per_kg (ns : Script.namespace) (b m : num) :
  ns !! "baseline" = Some (Script.VNum b) ->
  ns !! "energy_factor_multiplier" = Some (Script.VNum m) ->
  Script.assign_kgco2_per_kg ns
  = (inl tt, <["kgco2_per_kg" := Script.VNum (b * m)%py]> ns).
Proof. intros Hb Hm. unfold Script.assign_kgco2_per_kg. exec_stmt. Qed.

Lemma script_transport_emission_per_kg (i : input) (ns : Script.namespace) (v : num) :
  ns !! "default_factors" = Some (Script.VDict default_factors) ->
  transport_emission_per_kg_expr i = OK v ->
  Script.assign_transport_emission_per_kg i ns
  = (inl tt, <["transport_emission_per_kg" := Script.VNum v]> ns).
Proof.
  intros Ht Hv. unfold Script.assign_transport_emission_per_kg.
  unfold transport_emission_per_kg_expr in Hv.
  rewrite factor_transport, bind_OK in Hv.
  apply bind_OK_inv in Hv as (q & Hq & Hv).
  exec_stmt.
Qed.

Lemma script_transport_kgco2_per_ton (i : input) (ns : Script.namespace) (v : num) :
  ns !! "default_factors" = Some (Script.VDict default_factors) ->
  transport_kgco2_per_ton_expr i = OK v ->
  Script.assign_transport_kgco2_per_ton i ns
  = (inl tt, <["transport_kgco2_per_ton" := Script.VNum v]> ns).
Proof.
  intros Ht Hv. unfold Script.assign_transport_kgco2_per_ton.
  rewrite transport_kgco2_per_ton_value in Hv. injection Hv as <-.
  exec_stmt.
Qed.

Lemma script_total_co2_per_tonne (ns : Script.namespace) (k t : num) :
  ns !! "kgco2_per_kg" = Some (Script.VNum k) ->
  ns !! "transport_kgco2_per_ton" = Some (Script.VNum t) ->
  Script.assign_total_co2_per_tonne ns
  = (inl tt, <["total_co2_per_tonne" := Script.VNum (k * PyInt 1000 + t)%py]> ns).
Proof. intros Hk Ht. unfold Script.assign_total_co2_per_tonne. exec_stmt. Qed.

Lemma script_circularity (i : input) (ns : Script.namespace) :
  Script.assign_circularity i ns
  = (inl tt, <["circularity" := Script.VNum (circularity_score i)]> ns).
Proof.
  unfold Script.assign_circularity, circularity_score, Script.pass.
  destruct (String.eqb (eol_option i) "Recycling");
    [| destruct (String.eqb (eol_option i) "Reuse")];
    (etransitivity; [exec_stmt | rewrite !insert_insert_eq; reflexivity]).
Qed.

Lemma script_so2_kg_total (i : input) (ns : Script.namespace) (v : num) :
  ns !! "default_factors" = Some (Script.VDict default_factors) ->
  so2_estimate i = OK v ->
  Script.assign_so2_kg_total i ns
  = (inl tt, <["so2_kg_total" := Script.VNum v]> ns).
Proof.
  intros Ht Hv. unfold Script.assign_so2_kg_total, Script.pass.
  rewrite so2_estimate_value in Hv. injection Hv as <-.
  destruct (String.eqb (metal i) "Copper");
    (etransitivity; [exec_stmt | rewrite ?insert_insert_eq; reflexivity]).
Qed.

Lemma script_recycle_cost (i : input) (ns : Script.namespace) (c : num) :
  ns !! "default_factors" = Some (Script.VDict default_factors) ->
  recycle_cost_estimate i = OK c ->
  Script.assign_recycle_cost i ns
  = (inl tt, <["recycle_cost" := Script.VNum c]> ns).
Proof.
  intros Ht Hc. unfold Script.assign_recycle_cost. unfold recycle_cost_estimate in Hc.
  destruct (String.eqb (metal i) "Aluminium");
    [| destruct (String.eqb (metal i) "Copper")];
    autorewrite with factors in Hc; rewrite ?bind_OK in Hc;
    injection Hc as <-; exec_stmt.
Qed.

Lemma script_build_flags (i : input) (ns : Script.namespace) (rm so2 c : num) :
  ns !! "red_mud_t" = Some (Script.VNum rm) ->
  ns !! "so2_kg_total" = Some (Script.VNum so2) ->
  ns !! "circularity" = Some (Script.VNum c) ->
  Script.build_flags i ns
  = (inl tt, <["flags" := Script.VFlags (compliance_flags i rm so2 c)]> ns).
Proof.
  intros Hrm Hso2 Hc.
  unfold Script.build_flags, compliance_flags, append_if, Script.pass.
  destruct (String.eqb (storage_practice i) "Proper authorized storage"),
    (String.eqb (metal i) "Aluminium"), (String.eqb (metal i) "Copper"),
    (Py.gt rm (PyInt 0)) eqn:Grm, (Py.gt so2 (PyInt 0)) eqn:Gso2,
    (Py.lt c (PyInt 40)) eqn:Lc;
    (etransitivity;
     [ exec_stmt
     | rewrite ?insert_insert_eq; reflexivity ]).
Qed.

Lemma script_build_recs (i : input) (ns : Script.namespace) :
  Script.build_recs i ns
  = (inl tt, <["recs" := Script.VList (recommendations i)]> ns).
Proof.
  unfold Script.build_recs, recommendations, Script.pass.
  destruct (String.eqb (metal i) "Copper");
    (etransitivity; [exec_stmt | rewrite ?insert_insert_eq; reflexivity]).
Qed.

(** One paragraph of the block, by its lemma. *)
Ltac exec_paragraph :=
  first
    [ apply assign_eq
    | apply script_choose_baseline; [lookup_bound | eassumption]
    | apply script_energy_adjustment; eassumption
    | apply script_kgco2_per_kg; lookup_bound
    | apply script_transport_emission_per_kg; [lookup_bound | eassumption]
    | apply script_transport_kgco2_per_ton; [lookup_bound | eassumption]
    | apply script_total_co2_per_tonne; lookup_bound
    | apply script_circularity
    | apply script_so2_kg_total; [lookup_bound | eassumption]
    | apply script_recycle_cost; [lookup_bound | eassumption]
    | apply script_build_flags; lookup_bound
    | apply script_build_recs ].

Ltac exec_block :=
  cbv beta;
  lazymatch goal with
  | |- (?m ≫= ?k) ?ns = _ =>
      erewrite (exec_bind_inl m k ns) by exec_paragraph; exec_block
  | |- _ => exec_paragraph
  end.

(** The block, run in any namespace that binds the factor table, ends
    normally and leaves the outputs of the estimator bound over it. *)
Lemma script_run_button_block (i : input) (o : outputs) (ns : Script.namespace) :
  ns !! "default_factors" = Some (Script.VDict default_factors) ->
  run_button_block i = OK o ->
  Script.run_button_block i ns = (inl tt, Script.store o ns).
Proof.
  intros Ht Hrun.
  destruct (run_button_block_equations i o Hrun)
    as [Hb He Hkg Htkg Htton Htotal Hc Hso2 Hcost Hflags Hrecs].
  unfold Script.run_button_block, Script.store.
  etransitivity; [exec_block |].
  rewrite Hflags, Hrecs, Htotal, Hkg, Hc.
  reflexivity.
Qed.

Lemma script_run (i : input) (o : outputs) (ns : Script.namespace) :
  run_button_block i = OK o ->
  Script.run i ns
  = (inl tt, Script.store o (<["default_factors" := Script.VDict default_factors]> ns)).
Proof.
  intros Hrun. unfold Script.run, Script.assign_default_factors.
  erewrite exec_bind_inl by apply assign_eq.
  apply script_run_button_block; [apply lookup_insert_eq | exact Hrun].
Qed.

Lemma store_default_factors (o : outputs) (ns : Script.namespace) :
  Script.store o ns !! "default_factors" = ns !! "default_factors".
Proof.
  unfold Script.store. repeat (rewrite lookup_insert_ne by discriminate). reflexivity.
Qed.

(** The outputs are read back from what the block leaves, whatever the
    namespace it started in held. *)
Lemma outputs_of_store (o : outputs) (ns : Script.namespace) :
  Script.outputs_of (Script.store o ns) = Some o.
Proof.
  assert (Hnum : forall name x,
    Script.store o ns !! name = Some (Script.VNum x) ->
    Script.num_of (Script.store o ns) name = Some x)
    by (intros name x H; unfold Script.num_of; rewrite H; reflexivity).
  unfold Script.outputs_of.
  rewrite (Hnum "baseline" (baseline o)) by (unfold Script.store; lookup_bound).
  rewrite (Hnum "red_mud_t" (red_mud_t o)) by (unfold Script.store; lookup_bound).
  rewrite (Hnum "energy_factor_multiplier" (energy_factor_multiplier o))
    by (unfold Script.store; lookup_bound).
  rewrite (Hnum "kgco2_per_kg" (kgco2_per_kg o)) by (unfold Script.store; lookup_bound).
  rewrite (Hnum "transport_emission_per_kg" (transport_emission_per_kg o))
    by (unfold Script.store; lookup_bound).
  rewrite (Hnum "transport_kgco2_per_ton" (transport_kgco2_per_ton o))
    by (unfold Script.store; lookup_bound).
  rewrite (Hnum "total_co2_per_tonne" (total_co2_per_tonne o))
    by (unfold Script.store; lookup_bound).
  rewrite (Hnum "circularity" (circularity o)) by (unfold Script.store; lookup_bound).
  rewrite (Hnum "so2_kg_total" (so2_kg_total o)) by (unfold Script.store; lookup_bound).
  rewrite (Hnum "recycle_cost" (recycle_cost o)) by (unfold Script.store; lookup_bound).
  unfold Script.str_of, Script.flags_of, Script.list_of.
  replace (Script.store o ns !! "provenance_energy")
    with (Some (Script.VStr (provenance_energy o)))
    by (symmetry; unfold Script.store; lookup_bound).
  replace (Script.store o ns !! "flags") with (Some (Script.VFlags (flags o)))
    by (symmetry; unfold Script.store; lookup_bound).
  replace (Script.store o ns !! "recs") with (Some (Script.VList (recs o)))
    by (symmetry; unfold Script.store; lookup_bound).
  destruct o; reflexivity.
Qed.

(** C9.  The block is run as the script runs it: statement by statement
    over the module namespace, which a Streamlit session re-uses from one
    rerun to the next, so that a name the block reads could hold what an
    earlier run, or anything else, left there.  On a valid input and
    whatever the two namespaces held beforehand, both runs end normally
    (no [ZeroDivisionError], no [KeyError], no [NameError], no name used
    at another type) and leave the same outputs bound, all thirteen names of
    the block, equal to what the estimator returns; and invoking the block
    once more in the namespace the first run left gives these outputs
    again.  The computed outputs therefore depend on the form values
    alone. *)
Theorem estimator_deterministic_and_total
    (i : input) (ns1 ns2 : Script.namespace) :
  valid i ->
  exists (o : outputs) (ns1' ns2' ns1'' : Script.namespace),
    run_button_block i = OK o /\
    Script.run i ns1 = (inl tt, ns1') /\
    Script.run i ns2 = (inl tt, ns2') /\
    Script.outputs_of ns1' = Some o /\
    Script.outputs_of ns2' = Some o /\
    Script.run_button_block i ns1' = (inl tt, ns1'') /\
    Script.outputs_of ns1'' = Some o.
Proof.
  intros Hv.
  destruct (run_button_block_valid i Hv) as (o & Ho & _).
  exists o.
  exists (Script.store o (<["default_factors" := Script.VDict default_factors]> ns1)).
  exists (Script.store o (<["default_factors" := Script.VDict default_factors]> ns2)).
  eexists.
  split; [exact Ho |].
  split; [exact (script_run i o ns1 Ho) |].
  split; [exact (script_run i o ns2 Ho) |].
  split; [apply outputs_of_store |].
  split; [apply outputs_of_store |].
  split; [| apply outputs_of_store].
  apply script_run_button_block; [| exact Ho].
  rewrite store_default_factors. apply lookup_insert_eq.
Qed.

Lemma estimator_deterministic_and_total_witness :
  valid scenario_copper /\
  exists (o : outputs) (ns1' ns2' ns1'' : Script.namespace),
    run_button_block scenario_copper = OK o /\
    Script.run scenario_copper ∅ = (inl tt, ns1') /\
    Script.run scenario_copper Script.stale_namespace = (inl tt, ns2') /\
    Script.outputs_of ns1' = Some o /\
    Script.outputs_of ns2' = Some o /\
    Script.run_button_block scenario_copper ns1' = (inl tt, ns1'') /\
    Script.outputs_of ns1'' = Some o.
Proof.
  split; [constructor; simpl; auto; lia |].
  apply (estimator_deterministic_and_total scenario_copper ∅ Script.stale_namespace).
  constructor; simpl; auto; lia.
Defined.

(** The dependence on the namespace that the theorem excludes is real in
    the model: run on its own in a namespace without the factor table, the
    block stops at its first subscript of [default_factors]; and a single
    statement of the block does read what the namespace holds. *)
Example block_without_factor_table :
  fst (Script.run_button_block scenario_copper ∅)
  = inr (Script.NameError "default_factors").
Proof. vm_compute. reflexivity. Qed.

Example statement_reads_the_namespace :
  Script.num_of (snd (Script.assign_kgco2_per_kg Script.stale_namespace)) "kgco2_per_kg"
  = Some (PyInt 14)
  /\ fst (Script.assign_kgco2_per_kg ∅) = inr (Script.NameError "baseline").
Proof. split; vm_compute; reflexivity. Qed.

(** With a tonnage of zero the run of the script ends in the error of the
    estimator. *)
Example script_zero_tonnes_raises :
  fst (Script.run scenario_zero_tonnes ∅) = inr (Script.Builtin ZeroDivisionError).
Proof. vm_compute. reflexivity. Qed.

(** C1.  On every valid input the block returns, and its per-kg CO2e is the
    route baseline times the energy multiplier: the baseline is the metal's
    virgin constant, its recycled constant, or their interpolation at
    [recycled_pct] for the Mixed route; the multiplier is 1.2, 1.0 or 0.8
    according to the energy source. *)
Theorem co2_per_kg_is_baseline_times_multiplier
    (i : input) (m : Spec.Metal) (r : Spec.Route) (e : Spec.Energy) :
  valid i ->
  metal i = Spec.metal_label m ->
  production_route i = Spec.route_label r ->
  energy_source i = Spec.energy_label e ->
  exists o,
    run_button_block i = OK o /\
    baseline o = PyFloat (Spec.baseline m r (recycled_pct i)) /\
    energy_factor_multiplier o = PyFloat (Spec.energy_multiplier e) /\
    kgco2_per_kg o = PyFloat (Spec.co2_per_kg m r (recycled_pct i) e).
Proof.
  intros Hv Hm Hr He.
  destruct (run_button_block_valid i Hv) as (o & Ho & E).
  exists o. split; [exact Ho |].
  pose proof (eq_baseline i o E) as Hb.
  rewrite (choose_baseline_labels i m r Hm Hr) in Hb.
  injection Hb as Hb _.
  pose proof (energy_adjustment_labels i e He) as Hmult.
  rewrite (eq_energy i o E) in Hmult. simpl in Hmult.
  split; [symmetry; exact Hb |].
  split; [exact Hmult |].
  rewrite (eq_kgco2 i o E), <- Hb, Hmult. reflexivity.
Qed.

Lemma co2_per_kg_is_baseline_times_multiplier_witness :
  valid scenario_aluminium /\
  exists o,
    run_button_block scenario_aluminium = OK o /\
    baseline o = PyFloat (Spec.baseline Spec.Aluminium Spec.Mixed 30) /\
    energy_factor_multiplier o = PyFloat (Spec.energy_multiplier Spec.CoalGrid) /\
    kgco2_per_kg o = PyFloat (Spec.co2_per_kg Spec.Aluminium Spec.Mixed 30 Spec.CoalGrid).
Proof.
  split; [constructor; simpl; auto; lia |].
  apply (co2_per_kg_is_baseline_times_multiplier scenario_aluminium
           Spec.Aluminium Spec.Mixed Spec.CoalGrid);
    [constructor; simpl; auto; lia | reflexivity | reflexivity | reflexivity].
Defined.

(** The product of line 163 read in either order, for every distance the
    number input can return (checked on each of the 5001 integers). *)
Lemma transport_product_commutes (km : Z) :
  0 <= km <= 5000 ->
  (PyFloat 0.05 * PyInt km)%py = (PyInt km * PyFloat Spec.transport_constant)%py.
Proof.
  intros Hkm.
  apply (map_eq_Zrange (fun z => (PyFloat 0.05 * PyInt z)%py)
           (fun z => (PyInt z * PyFloat Spec.transport_constant)%py) 0 5001);
    [vm_compute; reflexivity | lia].
Qed.

Lemma valid_with_transport_tonnes (i : input) (t : Z) :
  valid i -> 1 <= t <= 10000 -> valid (with_transport_tonnes i t).
Proof. intros [] Ht. constructor; simpl; assumption. Qed.

(** The baseline and the energy multiplier do not read the tonnage. *)
Lemma kgco2_per_kg_ignores_tonnes (i : input) (t : Z) (o o' : outputs) :
  valid i ->
  run_equations i o -> run_equations (with_transport_tonnes i t) o' ->
  kgco2_per_kg o' = kgco2_per_kg o.
Proof.
  intros Hv E E'.
  destruct (metal_label_exists i Hv) as [m Hm].
  destruct (route_label_exists i Hv) as [r Hr].
  pose proof (eq_baseline _ _ E) as Hb.
  pose proof (eq_baseline _ _ E') as Hb'.
  rewrite (choose_baseline_labels i m r Hm Hr) in Hb.
  rewrite (choose_baseline_labels (with_transport_tonnes i t) m r Hm Hr) in Hb'.
  injection Hb as Hb _. injection Hb' as Hb' _. simpl in Hb'.
  pose proof (eq_energy _ _ E) as He. pose proof (eq_energy _ _ E') as He'.
  change (energy_adjustment (with_transport_tonnes i t))
    with (energy_adjustment i) in He'.
  rewrite He in He'. injection He' as He' _.
  rewrite (eq_kgco2 _ _ E), (eq_kgco2 _ _ E'). congruence.
Qed.

(** C2.  On every valid input the per-tonne total is exactly
    [kgco2_per_kg * 1000 + transport_km * 0.05]; the transport term and the
    total are the same for every admissible [transport_tonnes], the other
    form values being kept. *)
Theorem total_per_tonne_formula_and_tonnes_independence (i : input) :
  valid i ->
  exists o,
    run_button_block i = OK o /\
    transport_kgco2_per_ton o
      = (PyInt (transport_km i) * PyFloat Spec.transport_constant)%py /\
    total_co2_per_tonne o
      = (kgco2_per_kg o * PyInt 1000
         + PyInt (transport_km i) * PyFloat Spec.transport_constant)%py /\
    forall t, 1 <= t <= 10000 ->
      exists o',
        run_button_block (with_transport_tonnes i t) = OK o' /\
        transport_kgco2_per_ton o' = transport_kgco2_per_ton o /\
        total_co2_per_tonne o' = total_co2_per_tonne o.
Proof.
  intros Hv.
  destruct (run_button_block_valid i Hv) as (o & Ho & E).
  assert (Hton : transport_kgco2_per_ton o
                 = (PyInt (transport_km i) * PyFloat Spec.transport_constant)%py).
  { pose proof (eq_transport_ton i o E) as H.
    rewrite transport_kgco2_per_ton_value in H. injection H as <-.
    apply transport_product_commutes. destruct Hv. assumption. }
  exists o. split; [exact Ho |]. split; [exact Hton |].
  split; [rewrite (eq_total i o E), Hton; reflexivity |].
  intros t Ht.
  pose proof (valid_with_transport_tonnes i t Hv Ht) as Hv'.
  destruct (run_button_block_valid _ Hv') as (o' & Ho' & E').
  assert (Hton' : transport_kgco2_per_ton o' = transport_kgco2_per_ton o).
  { pose proof (eq_transport_ton _ _ E') as H.
    pose proof (eq_transport_ton _ _ E) as H0.
    rewrite transport_kgco2_per_ton_value in H, H0.
    injection H as <-. injection H0 as <-. reflexivity. }
  exists o'. split; [exact Ho' |]. split; [exact Hton' |].
  rewrite (eq_total _ _ E'), (eq_total _ _ E), Hton'.
  rewrite (kgco2_per_kg_ignores_tonnes i t o o' Hv E E'). reflexivity.
Qed.

Lemma total_per_tonne_formula_and_tonnes_independence_witness :
  valid scenario_copper /\
  exists o,
    run_button_block scenario_copper = OK o /\
    transport_kgco2_per_ton o = (PyInt 0 * PyFloat Spec.transport_constant)%py /\
    total_co2_per_tonne o
      = (kgco2_per_kg o * PyInt 1000 + PyInt 0 * PyFloat Spec.transport_constant)%py /\
    forall t, 1 <= t <= 10000 ->
      exists o',
        run_button_block (with_transport_tonnes scenario_copper t) = OK o' /\
        transport_kgco2_per_ton o' = transport_kgco2_per_ton o /\
        total_co2_per_tonne o' = total_co2_per_tonne o.
Proof.
  split; [constructor; simpl; auto; lia |].
  apply (total_per_tonne_formula_and_tonnes_independence scenario_copper).
  constructor; simpl; auto; lia.
Defined.

(** The score of lines 168-173 against the closed formula.  With no bonus
    the block leaves the product as it is while the formula adds 0; the two
    agree on each of the 101 slider positions. *)
Lemma circularity_score_formula (i : input) (e : Spec.Eol) :
  0 <= recycled_pct i <= 100 ->
  eol_option i = Spec.eol_label e ->
  circularity_score i = Spec.circularity (recycled_pct i) e.
Proof.
  intros Hp He. unfold circularity_score. rewrite He.
  destruct e; simpl String.eqb; cbv iota zeta.
  - apply (map_eq_Zrange
             (fun p => Py.min (PyInt 100) (PyInt p * PyFloat 0.5)%py)
             (fun p => Spec.circularity p Spec.Landfill) 0 101);
      [vm_compute; reflexivity | lia].
  - reflexivity.
  - reflexivity.
Qed.

Lemma circularity_in_range (p : Z) (e : Spec.Eol) :
  0 <= p <= 100 ->
  Py.le (PyInt 0) (Spec.circularity p e) = true /\
  Py.le (Spec.circularity p e) (PyInt 100) = true.
Proof.
  intros Hp. apply andb_true_iff.
  apply (forallb_Zrange
           (fun z => Py.le (PyInt 0) (Spec.circularity z e)
                     && Py.le (Spec.circularity z e) (PyInt 100)) 0 101);
    [destruct e; vm_compute; reflexivity | lia].
Qed.

(** C3.  On every valid input the circularity score is
    [min(100, recycled_pct * 0.5 + b)] with the single bonus [b] chosen by the
    end-of-life option (30 for Recycling, 40 for Reuse, 0 otherwise), and it
    lies between 0 and 100. *)
Theorem circularity_formula_and_range (i : input) (e : Spec.Eol) :
  valid i ->
  eol_option i = Spec.eol_label e ->
  exists o,
    run_button_block i = OK o /\
    circularity o
      = Py.min (PyInt 100)
          (PyInt (recycled_pct i) * PyFloat 0.5 + PyInt (Spec.eol_bonus e))%py /\
    Py.le (PyInt 0) (circularity o) = true /\
    Py.le (circularity o) (PyInt 100) = true.
Proof.
  intros Hv He.
  destruct (run_button_block_valid i Hv) as (o & Ho & E).
  assert (Hp : 0 <= recycled_pct i <= 100) by (destruct Hv; assumption).
  exists o. split; [exact Ho |].
  rewrite (eq_circularity i o E), (circularity_score_formula i e Hp He).
  split; [reflexivity |].
  apply circularity_in_range. exact Hp.
Qed.

Lemma circularity_formula_and_range_witness :
  valid scenario_copper /\
  exists o,
    run_button_block scenario_copper = OK o /\
    circularity o
      = Py.min (PyInt 100)
          (PyInt 0 * PyFloat 0.5 + PyInt (Spec.eol_bonus Spec.Landfill))%py /\
    Py.le (PyInt 0) (circularity o) = true /\
    Py.le (circularity o) (PyInt 100) = true.
Proof.
  split; [constructor; simpl; auto; lia |].
  apply (circularity_formula_and_range scenario_copper Spec.Landfill);
    [constructor; simpl; auto; lia | reflexivity].
Defined.

(** The by-product masses are positive, hence not zero, for every tonnage the
    number input can return (checked on each of the 10000 integers). *)
Lemma red_mud_positive (t : Z) :
  1 <= t <= 10000 ->
  Py.gt (PyFloat Spec.red_mud_ratio * PyInt t)%py (PyInt 0) = true /\
  Py.eq (PyFloat Spec.red_mud_ratio * PyInt t)%py (PyInt 0) = false.
Proof.
  intros Ht. rewrite <- negb_true_iff. apply andb_true_iff.
  apply (forallb_Zrange
           (fun z => Py.gt (PyFloat Spec.red_mud_ratio * PyInt z)%py (PyInt 0)
                     && negb (Py.eq (PyFloat Spec.red_mud_ratio * PyInt z)%py (PyInt 0)))
           1 10000);
    [vm_compute; reflexivity | lia].
Qed.

Lemma so2_positive (t : Z) :
  1 <= t <= 10000 ->
  Py.gt (PyFloat Spec.so2_ratio * PyInt t)%py (PyInt 0) = true /\
  Py.eq (PyFloat Spec.so2_ratio * PyInt t)%py (PyInt 0) = false.
Proof.
  intros Ht. rewrite <- negb_true_iff. apply andb_true_iff.
  apply (forallb_Zrange
           (fun z => Py.gt (PyFloat Spec.so2_ratio * PyInt z)%py (PyInt 0)
                     && negb (Py.eq (PyFloat Spec.so2_ratio * PyInt z)%py (PyInt 0)))
           1 10000);
    [vm_compute; reflexivity | lia].
Qed.

(** The by-products of one run, by metal. *)
Lemma by_products_labels (i : input) (o : outputs) (m : Spec.Metal) :
  metal i = Spec.metal_label m ->
  run_equations i o ->
  red_mud_t o =
    match m with
    | Spec.Aluminium => (PyFloat Spec.red_mud_ratio * PyInt (transport_tonnes i))%py
    | Spec.Copper => PyInt 0
    end /\
  so2_kg_total o =
    match m with
    | Spec.Aluminium => PyInt 0
    | Spec.Copper => (PyFloat Spec.so2_ratio * PyInt (transport_tonnes i))%py
    end.
Proof.
  intros Hm E.
  pose proof (eq_baseline i o E) as Hb. pose proof (eq_so2 i o E) as Hs.
  unfold choose_baseline in Hb. rewrite so2_estimate_value in Hs.
  rewrite Hm in Hb, Hs. injection Hs as <-.
  destruct m; simpl String.eqb in *; cbv iota in *.
  - apply bind_OK_inv in Hb as (b & _ & Hb).
    rewrite factor_red_mud, bind_OK in Hb. injection Hb as _ <-.
    split; reflexivity.
  - apply bind_OK_inv in Hb as (b & _ & Hb). injection Hb as _ <-.
    split; reflexivity.
Qed.

(** A valid run, its equations, and the sign of its by-products. *)
Lemma by_products_positive (i : input) (m : Spec.Metal) :
  valid i ->
  metal i = Spec.metal_label m ->
  exists o,
    run_button_block i = OK o /\ run_equations i o /\
    (m = Spec.Aluminium -> Py.gt (red_mud_t o) (PyInt 0) = true) /\
    (m = Spec.Copper -> Py.gt (so2_kg_total o) (PyInt 0) = true).
Proof.
  intros Hv Hm.
  destruct (run_button_block_valid i Hv) as (o & Ho & E).
  assert (Ht : 1 <= transport_tonnes i <= 10000) by (destruct Hv; assumption).
  destruct (by_products_labels i o m Hm E) as [Hrm Hso2].
  exists o. split; [exact Ho |]. split; [exact E |].
  split; intros ->; [rewrite Hrm | rewrite Hso2].
  - apply red_mud_positive. exact Ht.
  - apply so2_positive. exact Ht.
Qed.

(** C4.  On every valid input exactly one by-product is nonzero and the metal
    alone decides which: for Aluminium the red mud is the ratio times the
    tonnage, positive, and the SO2 total is 0; for Copper the SO2 total is the
    ratio times the tonnage, positive, and the red mud is 0. *)
Theorem exactly_one_by_product (i : input) (m : Spec.Metal) :
  valid i ->
  metal i = Spec.metal_label m ->
  exists o,
    run_button_block i = OK o /\
    match m with
    | Spec.Aluminium =>
        red_mud_t o = (PyFloat Spec.red_mud_ratio * PyInt (transport_tonnes i))%py /\
        Py.gt (red_mud_t o) (PyInt 0) = true /\
        Py.eq (red_mud_t o) (PyInt 0) = false /\
        so2_kg_total o = PyInt 0
    | Spec.Copper =>
        so2_kg_total o = (PyFloat Spec.so2_ratio * PyInt (transport_tonnes i))%py /\
        Py.gt (so2_kg_total o) (PyInt 0) = true /\
        Py.eq (so2_kg_total o) (PyInt 0) = false /\
        red_mud_t o = PyInt 0
    end.
Proof.
  intros Hv Hm.
  destruct (run_button_block_valid i Hv) as (o & Ho & E).
  assert (Ht : 1 <= transport_tonnes i <= 10000) by (destruct Hv; assumption).
  destruct (by_products_labels i o m Hm E) as [Hrm Hso2].
  exists o. split; [exact Ho |].
  destruct m; rewrite Hrm, Hso2.
  - destruct (red_mud_positive _ Ht) as [Hpos Hnz]. repeat split; assumption.
  - destruct (so2_positive _ Ht) as [Hpos Hnz]. repeat split; assumption.
Qed.

Lemma exactly_one_by_product_witness :
  valid scenario_copper /\
  exists o,
    run_button_block scenario_copper = OK o /\
    so2_kg_total o = (PyFloat Spec.so2_ratio * PyInt 5)%py /\
    Py.gt (so2_kg_total o) (PyInt 0) = true /\
    Py.eq (so2_kg_total o) (PyInt 0) = false /\
    red_mud_t o = PyInt 0.
Proof.
  split; [constructor; simpl; auto; lia |].
  apply (exactly_one_by_product scenario_copper Spec.Copper);
    [constructor; simpl; auto; lia | reflexivity].
Defined.

(** The interpolated baseline on every ordered pair of slider positions. *)
Lemma mixed_baseline_antitone (m : Spec.Metal) (p1 p2 : Z) :
  0 <= p1 -> p1 <= p2 -> p2 <= 100 ->
  PrimFloat.leb (Spec.baseline m Spec.Mixed p2) (Spec.baseline m Spec.Mixed p1) = true.
Proof.
  intros H0 H12 H100.
  pose (check := fun a b : Z =>
          (b <? a)
          || PrimFloat.leb (Spec.baseline m Spec.Mixed b) (Spec.baseline m Spec.Mixed a)).
  assert (Hall : forallb (fun a => forallb (check a) (Zrange 0 (Z.to_nat 101)))
                   (Zrange 0 (Z.to_nat 101)) = true)
    by (destruct m; vm_compute; reflexivity).
  pose proof (forallb_Zrange _ 0 101 Hall p1 ltac:(lia)) as Hrow.
  pose proof (forallb_Zrange _ 0 101 Hrow p2 ltac:(lia)) as Hcell.
  unfold check in Hcell. apply orb_true_iff in Hcell as [Hlt | Hle].
  - apply Z.ltb_lt in Hlt. lia.
  - exact Hle.
Qed.

Lemma valid_with_recycled_pct (i : input) (p : Z) :
  valid i -> 0 <= p <= 100 -> valid (with_recycled_pct i p).
Proof. intros [] Hp. constructor; simpl; assumption. Qed.

(** C6.  For a metal whose recycled constant is below its virgin constant (and
    both metals are such) the Mixed-route baseline does not increase with the
    recycled share: for [0 <= p1 <= p2 <= 100] and the other form values
    fixed, the baseline at [p2] is at most the baseline at [p1]. *)
Theorem mixed_baseline_non_increasing
    (i : input) (m : Spec.Metal) (p1 p2 : Z) :
  valid i ->
  metal i = Spec.metal_label m ->
  production_route i = Spec.route_label Spec.Mixed ->
  PrimFloat.ltb (Spec.recycled m) (Spec.virgin m) = true ->
  0 <= p1 -> p1 <= p2 -> p2 <= 100 ->
  (forall m', PrimFloat.ltb (Spec.recycled m') (Spec.virgin m') = true) /\
  exists o1 o2,
    run_button_block (with_recycled_pct i p1) = OK o1 /\
    run_button_block (with_recycled_pct i p2) = OK o2 /\
    Py.le (baseline o2) (baseline o1) = true.
Proof.
  intros Hv Hm Hr _ H0 H12 H100.
  split; [intros m'; destruct m'; reflexivity |].
  destruct (run_button_block_valid (with_recycled_pct i p1)) as (o1 & Ho1 & E1);
    [apply valid_with_recycled_pct; [exact Hv | lia] |].
  destruct (run_button_block_valid (with_recycled_pct i p2)) as (o2 & Ho2 & E2);
    [apply valid_with_recycled_pct; [exact Hv | lia] |].
  exists o1, o2. split; [exact Ho1 |]. split; [exact Ho2 |].
  pose proof (eq_baseline _ _ E1) as Hb1. pose proof (eq_baseline _ _ E2) as Hb2.
  rewrite (choose_baseline_labels (with_recycled_pct i p1) m Spec.Mixed Hm Hr) in Hb1.
  rewrite (choose_baseline_labels (with_recycled_pct i p2) m Spec.Mixed Hm Hr) in Hb2.
  injection Hb1 as <- _. injection Hb2 as <- _.
  apply mixed_baseline_antitone; assumption.
Qed.

Lemma mixed_baseline_non_increasing_witness :
  valid scenario_aluminium /\
  exists o1 o2,
    run_button_block (with_recycled_pct scenario_aluminium 30) = OK o1 /\
    run_button_block (with_recycled_pct scenario_aluminium 31) = OK o2 /\
    Py.le (baseline o2) (baseline o1) = true.
Proof.
  split; [constructor; simpl; auto; lia |].
  apply (mixed_baseline_non_increasing scenario_aluminium Spec.Aluminium 30 31);
    [constructor; simpl; auto; lia | reflexivity | reflexivity | reflexivity
    | lia | lia | lia].
Defined.

(** The four conditional appends of lines 219-227 select the matching rules
    in rule order, whatever the three quantities are. *)
Lemma compliance_flags_rules (i : input) (s : Spec.Storage) (m : Spec.Metal)
    (rm so2 c : num) :
  storage_practice i = Spec.storage_label s ->
  metal i = Spec.metal_label m ->
  compliance_flags i rm so2 c = Spec.flags s m rm so2 c.
Proof.
  intros Hs Hm.
  unfold compliance_flags, Spec.flags, Spec.flag_rules, append_if.
  rewrite Hs, Hm.
  destruct (Py.gt rm (PyInt 0)), (Py.gt so2 (PyInt 0)), (Py.lt c (PyInt 40)), s, m;
    reflexivity.
Qed.

(** The four flags are pairwise different, so membership in the selected list
    tells which rules matched. *)
Lemma flags_membership (s : Spec.Storage) (m : Spec.Metal) (rm so2 c : num) :
  let l := Spec.flags s m rm so2 c in
  (In storage_flag l <-> s <> Spec.Authorized) /\
  (In red_mud_flag l <-> m = Spec.Aluminium /\ Py.gt rm (PyInt 0) = true) /\
  (In air_emissions_flag l <-> m = Spec.Copper /\ Py.gt so2 (PyInt 0) = true) /\
  (In circularity_flag l <-> Py.lt c (PyInt 40) = true).
Proof.
  unfold Spec.flags, Spec.flag_rules.
  unfold storage_flag, red_mud_flag, air_emissions_flag, circularity_flag.
  destruct (Py.gt rm (PyInt 0)), (Py.gt so2 (PyInt 0)), (Py.lt c (PyInt 40)), s, m;
    simpl; repeat split; intros; literal_membership.
Qed.

(** C7.  On every valid input the flag list consists, in the fixed order
    storage, red mud, air emissions, circularity, of exactly the rules whose
    condition holds: storage practice not Authorized; Aluminium with positive
    red mud; Copper with positive SO2; circularity below 40.  The by-product
    conditions hold for every Aluminium, respectively Copper, input. *)
Theorem compliance_flags_in_order (i : input) (s : Spec.Storage) (m : Spec.Metal) :
  valid i ->
  storage_practice i = Spec.storage_label s ->
  metal i = Spec.metal_label m ->
  exists o,
    run_button_block i = OK o /\
    flags o = Spec.flags s m (red_mud_t o) (so2_kg_total o) (circularity o) /\
    (In storage_flag (flags o) <-> s <> Spec.Authorized) /\
    (In red_mud_flag (flags o)
       <-> m = Spec.Aluminium /\ Py.gt (red_mud_t o) (PyInt 0) = true) /\
    (m = Spec.Aluminium -> Py.gt (red_mud_t o) (PyInt 0) = true) /\
    (In air_emissions_flag (flags o)
       <-> m = Spec.Copper /\ Py.gt (so2_kg_total o) (PyInt 0) = true) /\
    (m = Spec.Copper -> Py.gt (so2_kg_total o) (PyInt 0) = true) /\
    (In circularity_flag (flags o) <-> Py.lt (circularity o) (PyInt 40) = true).
Proof.
  intros Hv Hs Hm.
  destruct (by_products_positive i m Hv Hm) as (o & Ho & E & Hrm & Hso2).
  exists o. split; [exact Ho |].
  rewrite (eq_flags i o E), (compliance_flags_rules i s m _ _ _ Hs Hm).
  destruct (flags_membership s m (red_mud_t o) (so2_kg_total o) (circularity o))
    as (F1 & F2 & F3 & F4).
  repeat split; try apply F1; try apply F2; try apply F3; try apply F4;
    assumption.
Qed.

Lemma compliance_flags_in_order_witness :
  valid scenario_copper /\
  exists o,
    run_button_block scenario_copper = OK o /\
    flags o = Spec.flags Spec.Untreated Spec.Copper
                (red_mud_t o) (so2_kg_total o) (circularity o) /\
    (In storage_flag (flags o) <-> Spec.Untreated <> Spec.Authorized) /\
    (In red_mud_flag (flags o)
       <-> Spec.Copper = Spec.Aluminium /\ Py.gt (red_mud_t o) (PyInt 0) = true) /\
    (Spec.Copper = Spec.Aluminium -> Py.gt (red_mud_t o) (PyInt 0) = true) /\
    (In air_emissions_flag (flags o)
       <-> Spec.Copper = Spec.Copper /\ Py.gt (so2_kg_total o) (PyInt 0) = true) /\
    (Spec.Copper = Spec.Copper -> Py.gt (so2_kg_total o) (PyInt 0) = true) /\
    (In circularity_flag (flags o) <-> Py.lt (circularity o) (PyInt 40) = true).
Proof.
  split; [constructor; simpl; auto; lia |].
  apply (compliance_flags_in_order scenario_copper Spec.Untreated Spec.Copper);
    [constructor; simpl; auto; lia | reflexivity | reflexivity].
Defined.

(** The appends of lines 233-238 against the fixed list with its insertion. *)
Lemma recommendations_labels (i : input) (m : Spec.Metal) :
  metal i = Spec.metal_label m -> recommendations i = Spec.recommendations m.
Proof.
  intros Hm. unfold recommendations, Spec.recommendations, append_if.
  rewrite Hm. destruct m; reflexivity.
Qed.

(** C8.  On every valid input the recommendations are the three fixed
    entries in their order, with the SO2 capture entry inserted after the
    second one exactly when the metal is Copper: it then sits at index 2,
    before the closing entry. *)
Theorem recommendations_fixed_with_copper_entry (i : input) (m : Spec.Metal) :
  valid i ->
  metal i = Spec.metal_label m ->
  exists o,
    run_button_block i = OK o /\
    recs o = firstn 2 Spec.fixed_recommendations
             ++ (if Spec.is_copper m then [rec_so2_capture] else [])
             ++ skipn 2 Spec.fixed_recommendations /\
    (In rec_so2_capture (recs o) <-> m = Spec.Copper) /\
    (m = Spec.Aluminium ->
       recs o = [rec_recycled_feedstock; rec_red_mud; rec_engage_spcb]) /\
    (m = Spec.Copper ->
       recs o = [rec_recycled_feedstock; rec_red_mud; rec_so2_capture; rec_engage_spcb]).
Proof.
  intros Hv Hm.
  destruct (run_button_block_valid i Hv) as (o & Ho & E).
  exists o. split; [exact Ho |].
  rewrite (eq_recs i o E), (recommendations_labels i m Hm).
  split; [reflexivity |].
  unfold Spec.recommendations, Spec.fixed_recommendations.
  unfold rec_recycled_feedstock, rec_red_mud, rec_so2_capture, rec_engage_spcb.
  destruct m; simpl; repeat split; intros; literal_membership.
Qed.

Lemma recommendations_fixed_with_copper_entry_witness :
  valid scenario_copper /\
  exists o,
    run_button_block scenario_copper = OK o /\
    recs o = firstn 2 Spec.fixed_recommendations
             ++ (if Spec.is_copper Spec.Copper then [rec_so2_capture] else [])
             ++ skipn 2 Spec.fixed_recommendations /\
    (In rec_so2_capture (recs o) <-> Spec.Copper = Spec.Copper) /\
    (Spec.Copper = Spec.Aluminium ->
       recs o = [rec_recycled_feedstock; rec_red_mud; rec_engage_spcb]) /\
    (Spec.Copper = Spec.Copper ->
       recs o = [rec_recycled_feedstock; rec_red_mud; rec_so2_capture; rec_engage_spcb]).
Proof.
  split; [constructor; simpl; auto; lia |].
  apply (recommendations_fixed_with_copper_entry scenario_copper Spec.Copper);
    [constructor; simpl; auto; lia | reflexivity].
Defined.

(** C5, as stated, fails: on the worked example the per-kg figure is not the
    float 14.88 (and the per-tonne total is not 14890), because the
    interpolation and the two products round in binary64. *)
Lemma scenario_aluminium_not_as_claimed :
  ~ exists o,
      run_button_block scenario_aluminium = OK o /\ scenario_aluminium_as_claimed o.
Proof.
  intros (o & Ho & Hco2 & _).
  vm_compute in Ho. injection Ho as <-.
  vm_compute in Hco2. discriminate Hco2.
Qed.

(** C5, amended.  On the worked example the block returns
    [kgco2_per_kg = 14.879999999999997] and
    [total_co2_per_tonne = 14889.999999999996], which the two headline
    metrics display as 14.88 (two decimals) and 14890 (no decimals); the
    transport term is 10, the circularity 45 and the red mud 1.5 exactly; the
    flag list holds the red-mud advisory and neither the storage nor the
    low-circularity warning. *)
Theorem scenario_aluminium_outputs :
  exists o,
    run_button_block scenario_aluminium = OK o /\
    kgco2_per_kg o = PyFloat 14.879999999999997 /\
    metric_co2_per_kg o = "14.88 kg CO₂e / kg" /\
    transport_kgco2_per_ton o = PyFloat 10 /\
    total_co2_per_tonne o = PyFloat 14889.999999999996 /\
    metric_co2_per_tonne o = "14890 kg CO₂e / t (incl transport)" /\
    circularity o = PyFloat 45 /\
    red_mud_t o = PyFloat 1.5 /\
    flags o = [red_mud_flag] /\
    In red_mud_flag (flags o) /\
    ~ In storage_flag (flags o) /\
    ~ In circularity_flag (flags o).
Proof.
  eexists. split; [vm_compute; reflexivity |].
  cbv [kgco2_per_kg transport_kgco2_per_ton total_co2_per_tonne circularity
       red_mud_t flags metric_co2_per_kg metric_co2_per_tonne].
  repeat split; try (vm_compute; reflexivity).
  - left. vm_compute. reflexivity.
  - intros [H | []]. vm_compute in H. discriminate H.
  - intros [H | []]. vm_compute in H. discriminate H.
Qed.

(** The second worked example of the specification (Copper, Virgin,
    RenewableHeavy, no transport, 5 tonnes, Landfill, Untreated, no recycled
    content) is met exactly: here no rounding shows. *)
Example scenario_copper_outputs :
  exists o,
    run_button_block scenario_copper = OK o /\
    kgco2_per_kg o = PyFloat 6.4 /\
    total_co2_per_tonne o = PyFloat 6400 /\
    so2_kg_total o = PyFloat 125 /\
    circularity o = PyFloat 0 /\
    flags o = [storage_flag; air_emissions_flag; circularity_flag].
Proof.
  eexists. split; [vm_compute; reflexivity |].
  repeat split; vm_compute; reflexivity.
Qed.

(** ** Further properties of the block *)

(** *** Failure and out-of-list labels *)




(** The block reads its strings only through nine comparisons. *)
Lemma same_tests_same_run (i i' : input) :
  same_tests i i' -> run_button_block i = run_button_block i'.
Proof.
  intros [Hal Hcu Hvi Hre Hco Hmi Hrc Hru Hau Hp Hkm Ht].
  unfold run_button_block, choose_baseline, energy_adjustment,
    transport_emission_per_kg_expr, guarded_divisor, transport_kgco2_per_ton_expr,
    circularity_score, so2_estimate, recycle_cost_estimate, compliance_flags,
    recommendations.
  rewrite Hal, Hcu, Hvi, Hre, Hco, Hmi, Hrc, Hru, Hau, Hp, Hkm, Ht.
  reflexivity.
Qed.

(** A conditional append keeps what the list holds. *)
Lemma in_append_if {A : Type} (c : bool) (x a : A) (l : list A) :
  In a l -> In a (append_if c x l).
Proof.
  intros Ha. unfold append_if. destruct c; [| exact Ha].
  apply in_or_app. left. exact Ha.
Qed.

(** X2.  The two storage practices that are not the authorized one are not
    told apart: on every form ["Temporary open storage"] and
    ["Untreated disposal"] give the same result, the storage warning
    included. *)
Theorem unauthorized_storage_practices_indistinguishable (i : input) :
  run_button_block (with_storage_practice i "Temporary open storage")
  = run_button_block (with_storage_practice i "Untreated disposal") /\
  forall o,
    run_button_block (with_storage_practice i "Untreated disposal") = OK o ->
    In storage_flag (flags o).
Proof.
  split; [apply same_tests_same_run; constructor; reflexivity |].
  intros o Ho. apply run_button_block_equations in Ho.
  rewrite (eq_flags _ _ Ho). unfold compliance_flags.
  do 3 apply in_append_if. simpl. left. reflexivity.
Qed.

(** X3.  The block has no test for ["Mixed"], ["Renewable-heavy"] or
    ["Landfill"]: any route other than Virgin/Raw and Recycled is computed as
    Mixed, any energy source other than the coal and mixed grids as
    Renewable-heavy, any end-of-life option other than Recycling and Reuse as
    Landfill. *)
Theorem unlisted_labels_take_the_default_branch (i : input) :
  run_button_block i = run_button_block (default_labels i).
Proof.
  apply same_tests_same_run. unfold default_labels.
  constructor; simpl; try reflexivity.
  - destruct (String.eqb (production_route i) "Virgin/Raw") eqn:Hv; [reflexivity |].
    destruct (String.eqb (production_route i) "Recycled"); reflexivity.
  - destruct (String.eqb (production_route i) "Virgin/Raw") eqn:Hv.
    + apply String.eqb_eq in Hv. rewrite Hv. reflexivity.
    + destruct (String.eqb (production_route i) "Recycled") eqn:Hr; reflexivity.
  - destruct (String.eqb (energy_source i) "Coal-based grid") eqn:Hc; [reflexivity |].
    destruct (String.eqb (energy_source i) "Mixed grid"); reflexivity.
  - destruct (String.eqb (energy_source i) "Coal-based grid") eqn:Hc.
    + apply String.eqb_eq in Hc. rewrite Hc. reflexivity.
    + destruct (String.eqb (energy_source i) "Mixed grid") eqn:Hm; reflexivity.
  - destruct (String.eqb (eol_option i) "Recycling") eqn:Hc; [reflexivity |].
    destruct (String.eqb (eol_option i) "Reuse"); reflexivity.
  - destruct (String.eqb (eol_option i) "Recycling") eqn:Hc.
    + apply String.eqb_eq in Hc. rewrite Hc. reflexivity.
    + destruct (String.eqb (eol_option i) "Reuse") eqn:Hm; reflexivity.
Qed.

Lemma String_eqb_false (s t : string) : s <> t -> String.eqb s t = false.
Proof. intros Hne. apply String.eqb_neq. exact Hne. Qed.

(** X4.  A metal outside the select box takes the copper branch of the
    baseline, so its CO2 figures are those of Copper, but it is given no
    by-product at all: red mud, SO2 and recycling cost are the integer 0 and
    neither by-product advisory is raised.  (Integers in the range that
    converts exactly; the tonnage not zero, since zero fails.) *)
Theorem unlisted_metal_has_copper_co2_and_no_by_product (i : input) :
  ints_convert_exactly i ->
  metal i <> "Aluminium" ->
  metal i <> "Copper" ->
  transport_tonnes i <> 0 ->
  exists o o',
    run_button_block i = OK o /\
    run_button_block (with_metal i "Copper") = OK o' /\
    kgco2_per_kg o = kgco2_per_kg o' /\
    total_co2_per_tonne o = total_co2_per_tonne o' /\
    red_mud_t o = PyInt 0 /\
    so2_kg_total o = PyInt 0 /\
    recycle_cost o = PyInt 0 /\
    ~ In red_mud_flag (flags o) /\
    ~ In air_emissions_flag (flags o).
Proof.
  intros _ Hal Hcu Ht.
  apply String_eqb_false in Hal. apply String_eqb_false in Hcu.
  destruct (run_button_block_total i Ht) as [o Ho].
  destruct (run_button_block_total (with_metal i "Copper") Ht) as [o' Ho'].
  pose proof (run_button_block_equations _ _ Ho) as E.
  pose proof (run_button_block_equations _ _ Ho') as E'.
  exists o, o'. split; [exact Ho |]. split; [exact Ho' |].
  (* the baseline paragraph: the else branch on both sides *)
  pose proof (eq_baseline _ _ E) as Hb. pose proof (eq_baseline _ _ E') as Hb'.
  assert (Hsame : choose_baseline (with_metal i "Copper") = choose_baseline i).
  { unfold choose_baseline. rewrite Hal. reflexivity. }
  rewrite Hsame, Hb in Hb'. injection Hb' as Hbase Hrm.
  assert (Hrm0 : red_mud_t o = PyInt 0).
  { unfold choose_baseline in Hb. rewrite Hal in Hb.
    apply bind_OK_inv in Hb as (b & _ & Hb). injection Hb as _ <-. reflexivity. }
  pose proof (eq_energy _ _ E) as He. pose proof (eq_energy _ _ E') as He'.
  change (energy_adjustment (with_metal i "Copper")) with (energy_adjustment i) in He'.
  rewrite He in He'. injection He' as Hmult _.
  assert (Hkg : kgco2_per_kg o = kgco2_per_kg o').
  { rewrite (eq_kgco2 _ _ E), (eq_kgco2 _ _ E'), Hbase, Hmult. reflexivity. }
  pose proof (eq_transport_ton _ _ E) as Hton.
  pose proof (eq_transport_ton _ _ E') as Hton'.
  rewrite transport_kgco2_per_ton_value in Hton, Hton'.
  injection Hton as Hton. injection Hton' as Hton'. simpl in Hton'.
  pose proof (eq_so2 _ _ E) as Hso2. rewrite so2_estimate_value, Hcu in Hso2.
  injection Hso2 as Hso2.
  pose proof (eq_cost _ _ E) as Hcost. unfold recycle_cost_estimate in Hcost.
  rewrite Hal, Hcu in Hcost. injection Hcost as Hcost.
  split; [exact Hkg |].
  split; [rewrite (eq_total _ _ E), (eq_total _ _ E'), Hkg, <- Hton, <- Hton'; reflexivity |].
  split; [exact Hrm0 |]. split; [symmetry; exact Hso2 |]. split; [symmetry; exact Hcost |].
  rewrite (eq_flags _ _ E). unfold compliance_flags, append_if. rewrite Hal, Hcu.
  unfold storage_flag, red_mud_flag, air_emissions_flag, circularity_flag.
  destruct (negb (String.eqb (storage_practice i) "Proper authorized storage"));
    destruct (Py.lt (circularity o) (PyInt 40));
    split; intros H; literal_membership.
Qed.

Lemma unlisted_metal_has_copper_co2_and_no_by_product_witness :
  metal (with_metal scenario_aluminium "Zinc") <> "Aluminium" /\
  exists o o',
    run_button_block (with_metal scenario_aluminium "Zinc") = OK o /\
    run_button_block (with_metal (with_metal scenario_aluminium "Zinc") "Copper") = OK o' /\
    kgco2_per_kg o = kgco2_per_kg o' /\
    total_co2_per_tonne o = total_co2_per_tonne o' /\
    red_mud_t o = PyInt 0 /\
    so2_kg_total o = PyInt 0 /\
    recycle_cost o = PyInt 0 /\
    ~ In red_mud_flag (flags o) /\
    ~ In air_emissions_flag (flags o).
Proof.
  split; [simpl; discriminate |].
  apply (unlisted_metal_has_copper_co2_and_no_by_product
           (with_metal scenario_aluminium "Zinc"));
    [constructor; simpl; lia | simpl; discriminate | simpl; discriminate
    | simpl; lia].
Defined.

(** *** Recycling cost (lines 182-187) *)

Lemma recycle_cost_estimate_labels (i : input) (m : Spec.Metal) :
  metal i = Spec.metal_label m ->
  recycle_cost_estimate i =
    OK (PyFloat (Spec.Z2F (cost_per_tonne m)) * PyInt (transport_tonnes i))%py.
Proof.
  intros Hm. unfold recycle_cost_estimate. rewrite Hm.
  destruct m; simpl String.eqb; cbv iota; autorewrite with factors; reflexivity.
Qed.

(** The cost product does not round: checked on each tonnage. *)
Lemma cost_product_exact (m : Spec.Metal) (t : Z) :
  1 <= t <= 10000 ->
  (PyFloat (Spec.Z2F (cost_per_tonne m)) * PyInt t)%py
  = PyFloat (Spec.Z2F (cost_per_tonne m * t)).
Proof.
  intros Ht.
  apply (map_eq_Zrange
           (fun z => (PyFloat (Spec.Z2F (cost_per_tonne m)) * PyInt z)%py)
           (fun z => PyFloat (Spec.Z2F (cost_per_tonne m * z))) 1 10000);
    [destruct m; vm_compute; reflexivity | lia].
Qed.

(** X5.  On every valid input the recycling cost is the metal's rate (200 for
    Aluminium, 300 for Copper) times the tonnage, and the float holds that
    whole number of dollars exactly: it is [float(rate * transport_tonnes)],
    at least 200.  The third branch of the test, cost 0, is never taken. *)
Theorem recycle_cost_is_exact_rate_times_tonnes (i : input) (m : Spec.Metal) :
  valid i ->
  metal i = Spec.metal_label m ->
  exists o,
    run_button_block i = OK o /\
    recycle_cost o = PyFloat (Spec.Z2F (cost_per_tonne m * transport_tonnes i)) /\
    200 <= cost_per_tonne m * transport_tonnes i /\
    Py.eq (recycle_cost o) (PyInt 0) = false.
Proof.
  intros Hv Hm.
  destruct (run_button_block_valid i Hv) as (o & Ho & E).
  assert (Ht : 1 <= transport_tonnes i <= 10000) by (destruct Hv; assumption).
  pose proof (eq_cost i o E) as Hc.
  rewrite (recycle_cost_estimate_labels i m Hm), (cost_product_exact m _ Ht) in Hc.
  injection Hc as Hc.
  exists o. split; [exact Ho |]. split; [symmetry; exact Hc |].
  split; [destruct m; simpl; lia |].
  rewrite <- Hc. rewrite <- negb_true_iff.
  apply (forallb_Zrange
           (fun z => negb (Py.eq (PyFloat (Spec.Z2F (cost_per_tonne m * z))) (PyInt 0)))
           1 10000);
    [destruct m; vm_compute; reflexivity | lia].
Qed.

Lemma recycle_cost_is_exact_rate_times_tonnes_witness :
  valid scenario_copper /\
  exists o,
    run_button_block scenario_copper = OK o /\
    recycle_cost o = PyFloat (Spec.Z2F (cost_per_tonne Spec.Copper * 5)) /\
    200 <= cost_per_tonne Spec.Copper * 5 /\
    Py.eq (recycle_cost o) (PyInt 0) = false.
Proof.
  split; [constructor; simpl; auto; lia |].
  apply (recycle_cost_is_exact_rate_times_tonnes scenario_copper Spec.Copper);
    [constructor; simpl; auto; lia | reflexivity].
Defined.

(** *** Circularity (lines 168-173 and 226-227) *)

(** The score in half points, and the clamp, on each slider position. *)
Lemma circularity_half_points (p : Z) (e : Spec.Eol) :
  0 <= p <= 100 ->
  Spec.circularity p e
  = (PyInt p * PyFloat 0.5 + PyInt (Spec.eol_bonus e))%py /\
  Spec.circularity p e
  = PyFloat (PrimFloat.div (Spec.Z2F (p + 2 * Spec.eol_bonus e)) 2) /\
  Py.lt (Spec.circularity p e) (PyInt 40) = (p + 2 * Spec.eol_bonus e <? 80).
Proof.
  intros Hp. split; [| split].
  - apply (map_eq_Zrange (fun z => Spec.circularity z e)
             (fun z => (PyInt z * PyFloat 0.5 + PyInt (Spec.eol_bonus e))%py) 0 101);
      [destruct e; vm_compute; reflexivity | lia].
  - apply (map_eq_Zrange (fun z => Spec.circularity z e)
             (fun z => PyFloat (PrimFloat.div (Spec.Z2F (z + 2 * Spec.eol_bonus e)) 2))
             0 101);
      [destruct e; vm_compute; reflexivity | lia].
  - apply (map_eq_Zrange (fun z => Py.lt (Spec.circularity z e) (PyInt 40))
             (fun z => z + 2 * Spec.eol_bonus e <? 80) 0 101);
      [destruct e; vm_compute; reflexivity | lia].
Qed.

(** X6.  On every valid input the clamp of line 173 changes nothing: the
    score is the unclamped [recycled_pct * 0.5 + bonus], a float that holds
    [(recycled_pct + 2 * bonus) / 2] exactly (a whole or half number), and it
    never exceeds 90. *)
Theorem circularity_clamp_never_applies (i : input) (e : Spec.Eol) :
  valid i ->
  eol_option i = Spec.eol_label e ->
  exists o,
    run_button_block i = OK o /\
    circularity o
      = (PyInt (recycled_pct i) * PyFloat 0.5 + PyInt (Spec.eol_bonus e))%py /\
    circularity o
      = PyFloat (PrimFloat.div (Spec.Z2F (recycled_pct i + 2 * Spec.eol_bonus e)) 2) /\
    recycled_pct i + 2 * Spec.eol_bonus e <= 180 /\
    Py.le (circularity o) (PyInt 90) = true.
Proof.
  intros Hv He.
  destruct (run_button_block_valid i Hv) as (o & Ho & E).
  assert (Hp : 0 <= recycled_pct i <= 100) by (destruct Hv; assumption).
  destruct (circularity_half_points _ e Hp) as (Hraw & Hhalf & _).
  exists o. split; [exact Ho |].
  rewrite (eq_circularity i o E), (circularity_score_formula i e Hp He).
  split; [exact Hraw |]. split; [exact Hhalf |].
  split; [destruct e; simpl; lia |].
  apply (forallb_Zrange (fun z => Py.le (Spec.circularity z e) (PyInt 90)) 0 101);
    [destruct e; vm_compute; reflexivity | lia].
Qed.

Lemma circularity_clamp_never_applies_witness :
  valid scenario_aluminium /\
  exists o,
    run_button_block scenario_aluminium = OK o /\
    circularity o = (PyInt 30 * PyFloat 0.5 + PyInt (Spec.eol_bonus Spec.Recycling))%py /\
    circularity o
      = PyFloat (PrimFloat.div (Spec.Z2F (30 + 2 * Spec.eol_bonus Spec.Recycling)) 2) /\
    30 + 2 * Spec.eol_bonus Spec.Recycling <= 180 /\
    Py.le (circularity o) (PyInt 90) = true.
Proof.
  split; [constructor; simpl; auto; lia |].
  apply (circularity_clamp_never_applies scenario_aluminium Spec.Recycling);
    [constructor; simpl; auto; lia | reflexivity].
Defined.

(** X7.  On every valid input the low-circularity warning is raised exactly
    when [recycled_pct + 2 * bonus < 80]: below 80 % recycled content with
    Landfill, below 20 % with Recycling, and never with Reuse. *)
Theorem low_circularity_warning_by_inputs (i : input) (e : Spec.Eol) :
  valid i ->
  eol_option i = Spec.eol_label e ->
  exists o,
    run_button_block i = OK o /\
    (In circularity_flag (flags o) <-> recycled_pct i + 2 * Spec.eol_bonus e < 80) /\
    (In circularity_flag (flags o) <->
       match e with
       | Spec.Landfill => recycled_pct i < 80
       | Spec.Recycling => recycled_pct i < 20
       | Spec.Reuse => False
       end).
Proof.
  intros Hv He.
  destruct (run_button_block_valid i Hv) as (o & Ho & E).
  assert (Hp : 0 <= recycled_pct i <= 100) by (destruct Hv; assumption).
  destruct (metal_label_exists i Hv) as [m Hm].
  destruct (storage_label_exists i Hv) as [s Hs].
  destruct (circularity_half_points _ e Hp) as (_ & _ & Hlow).
  assert (Hflag : In circularity_flag (flags o)
                  <-> recycled_pct i + 2 * Spec.eol_bonus e < 80).
  { rewrite (eq_flags i o E), (compliance_flags_rules i s m _ _ _ Hs Hm).
    destruct (flags_membership s m (red_mud_t o) (so2_kg_total o) (circularity o))
      as (_ & _ & _ & F).
    rewrite F, (eq_circularity i o E), (circularity_score_formula i e Hp He), Hlow.
    apply Z.ltb_lt. }
  exists o. split; [exact Ho |]. split; [exact Hflag |].
  rewrite Hflag. destruct e; simpl; lia.
Qed.

Lemma low_circularity_warning_by_inputs_witness :
  valid scenario_copper /\
  exists o,
    run_button_block scenario_copper = OK o /\
    (In circularity_flag (flags o) <-> 0 + 2 * Spec.eol_bonus Spec.Landfill < 80) /\
    (In circularity_flag (flags o) <-> 0 < 80).
Proof.
  split; [constructor; simpl; auto; lia |].
  apply (low_circularity_warning_by_inputs scenario_copper Spec.Landfill);
    [constructor; simpl; auto; lia | reflexivity].
Defined.

(** *** The per-kg transport variable (line 161) *)

(** For a positive tonnage the guard keeps the tonnage, and the inner
    quotient is 1: checked on each tonnage. *)
Lemma inner_quotient_is_one (t : Z) :
  1 <= t <= 10000 ->
  PrimFloat.div (Spec.Z2F t) (Spec.Z2F t) = 1%float.
Proof.
  intros Ht.
  apply (map_eq_Zrange (fun z => PrimFloat.div (Spec.Z2F z) (Spec.Z2F z))
           (fun _ => 1%float) 1 10000);
    [vm_compute; reflexivity | lia].
Qed.

Lemma transport_term_times_one (km : Z) :
  0 <= km <= 5000 ->
  PrimFloat.mul (PrimFloat.mul 0.05 (Spec.Z2F km)) 1 = PrimFloat.mul 0.05 (Spec.Z2F km) /\
  PrimFloat.div (PrimFloat.mul 0.05 (Spec.Z2F km)) (Spec.Z2F 1)
  = PrimFloat.mul 0.05 (Spec.Z2F km).
Proof.
  intros Hkm. split.
  - apply (map_eq_Zrange
             (fun z => PrimFloat.mul (PrimFloat.mul 0.05 (Spec.Z2F z)) 1)
             (fun z => PrimFloat.mul 0.05 (Spec.Z2F z)) 0 5001);
      [vm_compute; reflexivity | lia].
  - apply (map_eq_Zrange
             (fun z => PrimFloat.div (PrimFloat.mul 0.05 (Spec.Z2F z)) (Spec.Z2F 1))
             (fun z => PrimFloat.mul 0.05 (Spec.Z2F z)) 0 5001);
      [vm_compute; reflexivity | lia].
Qed.

(** X8.  On every valid input the variable [transport_emission_per_kg] of
    line 161 is the per-tonne transport figure of line 163 divided by the
    tonnage: the guarded inner quotient is exactly 1 and drops out.  The two
    variables coincide when one tonne is shipped. *)
Theorem transport_emission_per_kg_is_per_ton_over_tonnes (i : input) :
  valid i ->
  exists o,
    run_button_block i = OK o /\
    Py.truediv (transport_kgco2_per_ton o) (PyInt (transport_tonnes i))
      = OK (transport_emission_per_kg o) /\
    (transport_tonnes i = 1 ->
       transport_emission_per_kg o = transport_kgco2_per_ton o).
Proof.
  intros Hv.
  destruct (run_button_block_valid i Hv) as (o & Ho & E).
  assert (Ht : 1 <= transport_tonnes i <= 10000) by (destruct Hv; assumption).
  assert (Hkm : 0 <= transport_km i <= 5000) by (destruct Hv; assumption).
  pose proof (eq_transport_kg i o E) as Hkg.
  pose proof (eq_transport_ton i o E) as Hton.
  rewrite transport_emission_per_kg_value in Hkg by lia.
  rewrite transport_kgco2_per_ton_value in Hton.
  injection Hkg as Hkg. injection Hton as Hton.
  assert (Hguard : guarded_divisor i = PyInt (transport_tonnes i)).
  { unfold guarded_divisor, Py.gt, Py.lt.
    destruct (0 <? transport_tonnes i) eqn:Hpos; [reflexivity |].
    apply Z.ltb_ge in Hpos. lia. }
  rewrite Hguard in Hkg. simpl Py.to_float in Hkg.
  rewrite (inner_quotient_is_one _ Ht) in Hkg.
  destruct (transport_term_times_one _ Hkm) as [Hone Hdiv].
  rewrite Hone in Hkg.
  exists o. split; [exact Ho |]. split.
  - rewrite truediv_nonzero by (apply is_zero_PyInt; lia).
    rewrite <- Hton, <- Hkg. reflexivity.
  - intros H1. rewrite <- Hton, <- Hkg, H1. simpl Py.mul.
    rewrite Hdiv. reflexivity.
Qed.

Lemma transport_emission_per_kg_is_per_ton_over_tonnes_witness :
  valid scenario_aluminium /\
  exists o,
    run_button_block scenario_aluminium = OK o /\
    Py.truediv (transport_kgco2_per_ton o) (PyInt (transport_tonnes scenario_aluminium))
      = OK (transport_emission_per_kg o) /\
    (transport_tonnes scenario_aluminium = 1 ->
       transport_emission_per_kg o = transport_kgco2_per_ton o).
Proof.
  split; [constructor; simpl; auto; lia |].
  apply (transport_emission_per_kg_is_per_ton_over_tonnes scenario_aluminium).
  constructor; simpl; auto; lia.
Defined.

(** *** The CO2 figures (lines 127-165) *)

(** The per-kg figure of a run whose labels are known. *)
Lemma kgco2_per_kg_labels (i : input) (o : outputs)
    (m : Spec.Metal) (r : Spec.Route) (e : Spec.Energy) :
  metal i = Spec.metal_label m ->
  production_route i = Spec.route_label r ->
  energy_source i = Spec.energy_label e ->
  run_equations i o ->
  baseline o = PyFloat (Spec.baseline m r (recycled_pct i)) /\
  kgco2_per_kg o = PyFloat (Spec.co2_per_kg m r (recycled_pct i) e).
Proof.
  intros Hm Hr He E.
  pose proof (eq_baseline i o E) as Hb.
  rewrite (choose_baseline_labels i m r Hm Hr) in Hb. injection Hb as Hb _.
  pose proof (energy_adjustment_labels i e He) as Hmult.
  rewrite (eq_energy i o E) in Hmult. simpl in Hmult.
  split; [symmetry; exact Hb |].
  rewrite (eq_kgco2 i o E), <- Hb, Hmult. reflexivity.
Qed.

Lemma valid_with_energy_source (i : input) (e : Spec.Energy) :
  valid i -> valid (with_energy_source i (Spec.energy_label e)).
Proof. intros []. constructor; simpl; try assumption. destruct e; simpl; auto. Qed.

(** The three multipliers order the per-kg figure strictly, on each metal,
    route and slider position. *)
Lemma co2_per_kg_ordered_by_energy (m : Spec.Metal) (r : Spec.Route) (p : Z) :
  0 <= p <= 100 ->
  PrimFloat.ltb (Spec.co2_per_kg m r p Spec.RenewableHeavy)
                (Spec.co2_per_kg m r p Spec.MixedGrid) = true /\
  PrimFloat.ltb (Spec.co2_per_kg m r p Spec.MixedGrid)
                (Spec.co2_per_kg m r p Spec.CoalGrid) = true.
Proof.
  intros Hp. apply andb_true_iff.
  apply (forallb_Zrange
           (fun z =>
              PrimFloat.ltb (Spec.co2_per_kg m r z Spec.RenewableHeavy)
                            (Spec.co2_per_kg m r z Spec.MixedGrid)
              && PrimFloat.ltb (Spec.co2_per_kg m r z Spec.MixedGrid)
                               (Spec.co2_per_kg m r z Spec.CoalGrid)) 0 101);
    [destruct m, r; vm_compute; reflexivity | lia].
Qed.

(** X9.  With the other form values kept, the per-kg CO2e is strictly lower
    on the renewable-heavy grid than on the mixed grid, and strictly lower on
    the mixed grid than on the coal-based grid. *)
Theorem cleaner_grid_lowers_co2_per_kg (i : input) :
  valid i ->
  exists o_coal o_mixed o_renewable,
    run_button_block (with_energy_source i "Coal-based grid") = OK o_coal /\
    run_button_block (with_energy_source i "Mixed grid") = OK o_mixed /\
    run_button_block (with_energy_source i "Renewable-heavy") = OK o_renewable /\
    Py.lt (kgco2_per_kg o_renewable) (kgco2_per_kg o_mixed) = true /\
    Py.lt (kgco2_per_kg o_mixed) (kgco2_per_kg o_coal) = true.
Proof.
  intros Hv.
  assert (Hp : 0 <= recycled_pct i <= 100) by (destruct Hv; assumption).
  destruct (metal_label_exists i Hv) as [m Hm].
  destruct (route_label_exists i Hv) as [r Hr].
  destruct (run_button_block_valid _ (valid_with_energy_source i Spec.CoalGrid Hv))
    as (oc & Hoc & Ec).
  destruct (run_button_block_valid _ (valid_with_energy_source i Spec.MixedGrid Hv))
    as (om & Hom & Em).
  destruct (run_button_block_valid _ (valid_with_energy_source i Spec.RenewableHeavy Hv))
    as (orn & Horn & Ern).
  exists oc, om, orn.
  split; [exact Hoc |]. split; [exact Hom |]. split; [exact Horn |].
  destruct (kgco2_per_kg_labels (with_energy_source i "Coal-based grid") oc
              m r Spec.CoalGrid Hm Hr eq_refl Ec) as [_ Hkc].
  destruct (kgco2_per_kg_labels (with_energy_source i "Mixed grid") om
              m r Spec.MixedGrid Hm Hr eq_refl Em) as [_ Hkm].
  destruct (kgco2_per_kg_labels (with_energy_source i "Renewable-heavy") orn
              m r Spec.RenewableHeavy Hm Hr eq_refl Ern) as [_ Hkr].
  rewrite Hkc, Hkm, Hkr. simpl recycled_pct.
  apply (co2_per_kg_ordered_by_energy m r _ Hp).
Qed.

Lemma cleaner_grid_lowers_co2_per_kg_witness :
  valid scenario_aluminium /\
  exists o_coal o_mixed o_renewable,
    run_button_block (with_energy_source scenario_aluminium "Coal-based grid")
      = OK o_coal /\
    run_button_block (with_energy_source scenario_aluminium "Mixed grid") = OK o_mixed /\
    run_button_block (with_energy_source scenario_aluminium "Renewable-heavy")
      = OK o_renewable /\
    Py.lt (kgco2_per_kg o_renewable) (kgco2_per_kg o_mixed) = true /\
    Py.lt (kgco2_per_kg o_mixed) (kgco2_per_kg o_coal) = true.
Proof.
  split; [constructor; simpl; auto; lia |].
  apply (cleaner_grid_lowers_co2_per_kg scenario_aluminium).
  constructor; simpl; auto; lia.
Defined.

(** The interpolation between its end points, on each slider position. *)
Lemma mixed_baseline_between_constants (m : Spec.Metal) (p : Z) :
  0 <= p <= 100 ->
  PrimFloat.leb (Spec.recycled m) (Spec.baseline m Spec.Mixed p) = true /\
  PrimFloat.leb (Spec.baseline m Spec.Mixed p) (Spec.virgin m) = true.
Proof.
  intros Hp. apply andb_true_iff.
  apply (forallb_Zrange
           (fun z => PrimFloat.leb (Spec.recycled m) (Spec.baseline m Spec.Mixed z)
                     && PrimFloat.leb (Spec.baseline m Spec.Mixed z) (Spec.virgin m))
           0 101);
    [destruct m; vm_compute; reflexivity | lia].
Qed.

(** X10.  On the Mixed route the baseline lies between the metal's recycled
    and virgin constants; with 0 % recycled content it is exactly the virgin
    constant and with 100 % exactly the recycled one, so the two ends of the
    slider reproduce the Virgin and Recycled routes. *)
Theorem mixed_baseline_end_points (i : input) (m : Spec.Metal) :
  valid i ->
  metal i = Spec.metal_label m ->
  production_route i = Spec.route_label Spec.Mixed ->
  exists o,
    run_button_block i = OK o /\
    Py.le (PyFloat (Spec.recycled m)) (baseline o) = true /\
    Py.le (baseline o) (PyFloat (Spec.virgin m)) = true /\
    (recycled_pct i = 0 -> baseline o = PyFloat (Spec.baseline m Spec.Virgin 0)) /\
    (recycled_pct i = 100 -> baseline o = PyFloat (Spec.baseline m Spec.Recycled 100)).
Proof.
  intros Hv Hm Hr.
  destruct (run_button_block_valid i Hv) as (o & Ho & E).
  assert (Hp : 0 <= recycled_pct i <= 100) by (destruct Hv; assumption).
  pose proof (eq_baseline i o E) as Hb.
  rewrite (choose_baseline_labels i m Spec.Mixed Hm Hr) in Hb. injection Hb as Hb _.
  destruct (mixed_baseline_between_constants m _ Hp) as [Hlo Hhi].
  exists o. split; [exact Ho |]. rewrite <- Hb.
  split; [exact Hlo |]. split; [exact Hhi |].
  split; intros ->; destruct m; vm_compute; reflexivity.
Qed.

Lemma mixed_baseline_end_points_witness :
  valid (with_recycled_pct scenario_aluminium 100) /\
  exists o,
    run_button_block (with_recycled_pct scenario_aluminium 100) = OK o /\
    Py.le (PyFloat (Spec.recycled Spec.Aluminium)) (baseline o) = true /\
    Py.le (baseline o) (PyFloat (Spec.virgin Spec.Aluminium)) = true /\
    (100 = 0 -> baseline o = PyFloat (Spec.baseline Spec.Aluminium Spec.Virgin 0)) /\
    (100 = 100 ->
       baseline o = PyFloat (Spec.baseline Spec.Aluminium Spec.Recycled 100)).
Proof.
  split; [constructor; simpl; auto; lia |].
  apply (mixed_baseline_end_points (with_recycled_pct scenario_aluminium 100)
           Spec.Aluminium);
    [constructor; simpl; auto; lia | reflexivity | reflexivity].
Defined.

(** X11.  On the Virgin and Recycled routes the recycled-content slider has
    no effect on the CO2 figures: for every slider position the baseline,
    the per-kg figure and the per-tonne total are those of the form as
    given. *)
Theorem fixed_routes_ignore_recycled_pct
    (i : input) (r : Spec.Route) (p' : Z) :
  valid i ->
  production_route i = Spec.route_label r ->
  r <> Spec.Mixed ->
  0 <= p' <= 100 ->
  exists o o',
    run_button_block i = OK o /\
    run_button_block (with_recycled_pct i p') = OK o' /\
    baseline o' = baseline o /\
    kgco2_per_kg o' = kgco2_per_kg o /\
    total_co2_per_tonne o' = total_co2_per_tonne o.
Proof.
  intros Hv Hr Hnot Hp'.
  destruct (metal_label_exists i Hv) as [m Hm].
  destruct (energy_label_exists i Hv) as [e He].
  destruct (run_button_block_valid i Hv) as (o & Ho & E).
  destruct (run_button_block_valid _ (valid_with_recycled_pct i p' Hv Hp'))
    as (o' & Ho' & E').
  destruct (kgco2_per_kg_labels i o m r e Hm Hr He E) as [Hb Hk].
  destruct (kgco2_per_kg_labels (with_recycled_pct i p') o' m r e Hm Hr He E')
    as [Hb' Hk'].
  simpl recycled_pct in Hb', Hk'.
  assert (Hbase : Spec.baseline m r p' = Spec.baseline m r (recycled_pct i))
    by (destruct r; [reflexivity | reflexivity | destruct (Hnot eq_refl)]).
  unfold Spec.co2_per_kg in Hk, Hk'. rewrite Hbase in Hb', Hk'.
  pose proof (eq_transport_ton _ _ E) as Hton.
  pose proof (eq_transport_ton _ _ E') as Hton'.
  rewrite transport_kgco2_per_ton_value in Hton, Hton'.
  injection Hton as Hton. injection Hton' as Hton'. simpl in Hton'.
  exists o, o'. split; [exact Ho |]. split; [exact Ho' |].
  split; [rewrite Hb, Hb'; reflexivity |].
  split; [rewrite Hk, Hk'; reflexivity |].
  rewrite (eq_total _ _ E), (eq_total _ _ E'), Hk, Hk', <- Hton, <- Hton'.
  reflexivity.
Qed.

Lemma fixed_routes_ignore_recycled_pct_witness :
  valid scenario_copper /\
  exists o o',
    run_button_block scenario_copper = OK o /\
    run_button_block (with_recycled_pct scenario_copper 75) = OK o' /\
    baseline o' = baseline o /\
    kgco2_per_kg o' = kgco2_per_kg o /\
    total_co2_per_tonne o' = total_co2_per_tonne o.
Proof.
  split; [constructor; simpl; auto; lia |].
  apply (fixed_routes_ignore_recycled_pct scenario_copper Spec.Virgin 75);
    [constructor; simpl; auto; lia | reflexivity | discriminate | lia].
Defined.

(** The per-kg figure between its extremes, on each metal, route, energy
    source and slider position. *)
Lemma co2_per_kg_bounds (m : Spec.Metal) (r : Spec.Route) (e : Spec.Energy) (p : Z) :
  0 <= p <= 100 ->
  PrimFloat.leb 1.6 (Spec.co2_per_kg m r p e) = true /\
  PrimFloat.leb (Spec.co2_per_kg m r p e) 19.2 = true.
Proof.
  intros Hp. apply andb_true_iff.
  apply (forallb_Zrange
           (fun z => PrimFloat.leb 1.6 (Spec.co2_per_kg m r z e)
                     && PrimFloat.leb (Spec.co2_per_kg m r z e) 19.2) 0 101);
    [destruct m, r, e; vm_compute; reflexivity | lia].
Qed.

(** X12.  On every valid input the per-kg CO2e lies between 1.6 (recycled
    copper on the renewable-heavy grid) and 19.2 (virgin aluminium on the
    coal-based grid); in particular it is positive. *)
Theorem co2_per_kg_between_1_6_and_19_2 (i : input) :
  valid i ->
  exists o,
    run_button_block i = OK o /\
    Py.le (PyFloat 1.6) (kgco2_per_kg o) = true /\
    Py.le (kgco2_per_kg o) (PyFloat 19.2) = true /\
    Py.gt (kgco2_per_kg o) (PyInt 0) = true.
Proof.
  intros Hv.
  assert (Hp : 0 <= recycled_pct i <= 100) by (destruct Hv; assumption).
  destruct (metal_label_exists i Hv) as [m Hm].
  destruct (route_label_exists i Hv) as [r Hr].
  destruct (energy_label_exists i Hv) as [e He].
  destruct (run_button_block_valid i Hv) as (o & Ho & E).
  destruct (kgco2_per_kg_labels i o m r e Hm Hr He E) as [_ Hk].
  destruct (co2_per_kg_bounds m r e _ Hp) as [Hlo Hhi].
  exists o. split; [exact Ho |]. rewrite Hk.
  split; [exact Hlo |]. split; [exact Hhi |].
  apply (forallb_Zrange
           (fun z => Py.gt (PyFloat (Spec.co2_per_kg m r z e)) (PyInt 0)) 0 101);
    [destruct m, r, e; vm_compute; reflexivity | lia].
Qed.

Lemma co2_per_kg_between_1_6_and_19_2_witness :
  valid scenario_aluminium /\
  exists o,
    run_button_block scenario_aluminium = OK o /\
    Py.le (PyFloat 1.6) (kgco2_per_kg o) = true /\
    Py.le (kgco2_per_kg o) (PyFloat 19.2) = true /\
    Py.gt (kgco2_per_kg o) (PyInt 0) = true.
Proof.
  split; [constructor; simpl; auto; lia |].
  apply (co2_per_kg_between_1_6_and_19_2 scenario_aluminium).
  constructor; simpl; auto; lia.
Defined.

(** *** The compliance card as a whole (lines 219-229) *)

(** X13.  On every valid input the compliance card is never empty and never
    longer than three: it holds exactly one of the two by-product advisories
    (red mud or air emissions, by metal), and no flag twice. *)
Theorem compliance_card_has_one_by_product_advisory (i : input) :
  valid i ->
  exists o,
    run_button_block i = OK o /\
    (1 <= length (flags o))%nat /\
    (length (flags o) <= 3)%nat /\
    List.NoDup (flags o) /\
    (In red_mud_flag (flags o) <-> ~ In air_emissions_flag (flags o)).
Proof.
  intros Hv.
  destruct (metal_label_exists i Hv) as [m Hm].
  destruct (storage_label_exists i Hv) as [s Hs].
  destruct (by_products_positive i m Hv Hm) as (o & Ho & E & Hrm & Hso2).
  exists o. split; [exact Ho |].
  rewrite (eq_flags i o E), (compliance_flags_rules i s m _ _ _ Hs Hm).
  unfold Spec.flags, Spec.flag_rules.
  unfold storage_flag, red_mud_flag, air_emissions_flag, circularity_flag.
  destruct m; [rewrite (Hrm eq_refl) | rewrite (Hso2 eq_refl)];
    destruct s, (Py.lt (circularity o) (PyInt 40)); simpl;
    (split; [lia |]); (split; [lia |]);
    (split;
     [ repeat (apply List.NoDup_cons; [intros H; literal_membership |]);
       apply List.NoDup_nil
     | split;
       [ intros H H'; literal_membership
       | intros H;
         first [ solve [literal_membership]
               | exfalso; apply H; solve [literal_membership] ] ] ]).
Qed.

Lemma compliance_card_has_one_by_product_advisory_witness :
  valid scenario_copper /\
  exists o,
    run_button_block scenario_copper = OK o /\
    (1 <= length (flags o))%nat /\
    (length (flags o) <= 3)%nat /\
    List.NoDup (flags o) /\
    (In red_mud_flag (flags o) <-> ~ In air_emissions_flag (flags o)).
Proof.
  split; [constructor; simpl; auto; lia |].
  apply (compliance_card_has_one_by_product_advisory scenario_copper).
  constructor; simpl; auto; lia.
Defined.

(** *** The figures shown in the results panel (lines 198-199, 208-214) *)

(** Two string-valued functions compared on every integer of an interval. *)
Lemma string_eq_Zrange (f g : Z -> string) (lo n : Z) :
  forallb (fun z => String.eqb (f z) (g z)) (Zrange lo (Z.to_nat n)) = true ->
  forall z, lo <= z < lo + n -> f z = g z.
Proof.
  intros Hall z Hz. apply String.eqb_eq.
  exact (forallb_Zrange (fun z => String.eqb (f z) (g z)) lo n Hall z Hz).
Qed.

(** The score printed with one decimal, on each slider position. *)
Lemma circularity_printed (p : Z) (e : Spec.Eol) :
  0 <= p <= 100 ->
  format_f 1 (Spec.circularity p e)
  = digits ((p + 2 * Spec.eol_bonus e) / 2) +:+ (if Z.odd p then ".5" else ".0").
Proof.
  intros Hp.
  apply (string_eq_Zrange (fun z => format_f 1 (Spec.circularity z e))
           (fun z => digits ((z + 2 * Spec.eol_bonus e) / 2)
                     +:+ (if Z.odd z then ".5" else ".0")) 0 101);
    [destruct e; vm_compute; reflexivity | lia].
Qed.

(** Rounding a multiple of the divisor changes nothing. *)
Lemma round_half_even_exact (n q : Z) : 0 < q -> round_half_even (n * q) q = n.
Proof.
  intros Hq. unfold round_half_even.
  rewrite Z.div_mul, Z.mod_mul by lia.
  replace (q <? 2 * 0) with false by (symmetry; apply Z.ltb_ge; lia).
  replace (q =? 2 * 0) with false by (symmetry; apply Z.eqb_neq; lia).
  reflexivity.
Qed.

(** An exact float is printed as its units, by both format specifications. *)
Lemma exact_units_printed (prec : nat) (x : num) (n : Z) :
  exact_units prec x n = true ->
  format_f prec x = fixed_notation prec n /\
  format_comma_f prec x = fixed_notation_grouped prec n.
Proof.
  unfold exact_units, format_f, format_comma_f.
  destruct (Prim2SF (Py.to_float x)) as [[|] | [|] | | [|] m e]; try discriminate.
  - intros Hn. apply Z.eqb_eq in Hn. subst n. split; reflexivity.
  - intros Hn. apply Z.eqb_eq in Hn. cbv zeta. rewrite Hn.
    rewrite round_half_even_exact by (apply Z.pow_pos_nonneg; lia).
    split; reflexivity.
Qed.

Lemma fixed_notation_whole (n : Z) :
  fixed_notation 2 (100 * n) = digits n +:+ ".00" /\
  fixed_notation_grouped 2 (100 * n) = group_thousands (digits n) +:+ ".00" /\
  fixed_notation 1 (10 * n) = digits n +:+ ".0".
Proof.
  unfold fixed_notation, fixed_notation_grouped.
  change (10 ^ Z.of_nat 2) with 100. change (10 ^ Z.of_nat 1) with 10.
  assert (Hq : 100 * n / 100 = n) by (rewrite Z.mul_comm; apply Z.div_mul; lia).
  assert (Hr : (100 * n) mod 100 = 0) by (rewrite Z.mul_comm; apply Z.mod_mul; lia).
  assert (Hq' : 10 * n / 10 = n) by (rewrite Z.mul_comm; apply Z.div_mul; lia).
  assert (Hr' : (10 * n) mod 10 = 0) by (rewrite Z.mul_comm; apply Z.mod_mul; lia).
  rewrite Hq, Hr, Hq', Hr'. repeat split; reflexivity.
Qed.

Lemma fixed_notation_halves (t : Z) :
  fixed_notation 2 (150 * t) = digits (3 * t / 2) +:+ (if Z.odd t then ".50" else ".00").
Proof.
  unfold fixed_notation. change (10 ^ Z.of_nat 2) with 100.
  pose proof (Zmod_odd t) as Hmod.
  destruct (Z.odd t).
  - assert (Hq : 150 * t / 100 = 3 * t / 2) by (Z.div_mod_to_equations; lia).
    assert (Hr : (150 * t) mod 100 = 50) by (Z.div_mod_to_equations; lia).
    rewrite Hq, Hr. reflexivity.
  - assert (Hq : 150 * t / 100 = 3 * t / 2) by (Z.div_mod_to_equations; lia).
    assert (Hr : (150 * t) mod 100 = 0) by (Z.div_mod_to_equations; lia).
    rewrite Hq, Hr. reflexivity.
Qed.

(** The cost, the red mud and the SO2 are exact at their printed precision:
    checked on each tonnage. *)
Lemma printed_figures_exact (t : Z) :
  1 <= t <= 10000 ->
  (forall m, exact_units 2 (PyFloat (Spec.Z2F (cost_per_tonne m * t)))
               (100 * (cost_per_tonne m * t)) = true) /\
  exact_units 2 (PyFloat Spec.red_mud_ratio * PyInt t)%py (150 * t) = true /\
  exact_units 1 (PyFloat Spec.so2_ratio * PyInt t)%py (10 * (25 * t)) = true.
Proof.
  intros Ht. split; [intros m | split].
  - apply (forallb_Zrange
             (fun z => exact_units 2 (PyFloat (Spec.Z2F (cost_per_tonne m * z)))
                         (100 * (cost_per_tonne m * z))) 1 10000);
      [destruct m; vm_compute; reflexivity | lia].
  - apply (forallb_Zrange
             (fun z => exact_units 2 (PyFloat Spec.red_mud_ratio * PyInt z)%py (150 * z))
             1 10000);
      [vm_compute; reflexivity | lia].
  - apply (forallb_Zrange
             (fun z => exact_units 1 (PyFloat Spec.so2_ratio * PyInt z)%py (10 * (25 * z)))
             1 10000);
      [vm_compute; reflexivity | lia].
Qed.

Lemma string_append_assoc (a b c : string) : (a +:+ b) +:+ c = a +:+ (b +:+ c).
Proof.
  induction a as [| x a IH]; [reflexivity |].
  change (String x ((a +:+ b) +:+ c) = String x (a +:+ (b +:+ c))).
  rewrite IH. reflexivity.
Qed.

(** The cost printed with thousands separators. *)
Lemma cost_printed (m : Spec.Metal) (t : Z) :
  1 <= t <= 10000 ->
  format_comma_f 2 (PyFloat (Spec.Z2F (cost_per_tonne m * t)))
  +:+ " (for " +:+ str_int t +:+ " t)"
  = group_thousands (digits (cost_per_tonne m * t))
    +:+ ".00 (for " +:+ digits t +:+ " t)".
Proof.
  intros Ht.
  destruct (printed_figures_exact t Ht) as (Hcost & _ & _).
  destruct (exact_units_printed _ _ _ (Hcost m)) as [_ ->].
  destruct (fixed_notation_whole (cost_per_tonne m * t)) as (_ & -> & _).
  assert (Hstr : str_int t = digits t).
  { unfold str_int. destruct (t <? 0) eqn:Hneg; [| reflexivity].
    apply Z.ltb_lt in Hneg. lia. }
  rewrite Hstr, string_append_assoc. reflexivity.
Qed.

(** X14.  The circularity and cost metrics print their values without
    rounding: the score appears as the whole part of
    [(recycled_pct + 2 * bonus) / 2] followed by [.5] for an odd percentage
    and [.0] for an even one; the cost appears as the whole dollar amount
    [rate * transport_tonnes] with thousands separators and [.00], followed
    by the tonnage. *)
Theorem circularity_and_cost_metrics_print_exactly
    (i : input) (m : Spec.Metal) (e : Spec.Eol) :
  valid i ->
  metal i = Spec.metal_label m ->
  eol_option i = Spec.eol_label e ->
  exists o,
    run_button_block i = OK o /\
    metric_circularity o
      = digits ((recycled_pct i + 2 * Spec.eol_bonus e) / 2)
        +:+ (if Z.odd (recycled_pct i) then ".5" else ".0") /\
    metric_recycle_cost i o
      = group_thousands (digits (cost_per_tonne m * transport_tonnes i))
        +:+ ".00 (for " +:+ digits (transport_tonnes i) +:+ " t)".
Proof.
  intros Hv Hm He.
  destruct (run_button_block_valid i Hv) as (o & Ho & E).
  assert (Hp : 0 <= recycled_pct i <= 100) by (destruct Hv; assumption).
  assert (Ht : 1 <= transport_tonnes i <= 10000) by (destruct Hv; assumption).
  exists o. split; [exact Ho |]. split.
  - unfold metric_circularity.
    rewrite (eq_circularity i o E), (circularity_score_formula i e Hp He).
    apply circularity_printed. exact Hp.
  - unfold metric_recycle_cost.
    pose proof (eq_cost i o E) as Hc.
    rewrite (recycle_cost_estimate_labels i m Hm), (cost_product_exact m _ Ht) in Hc.
    injection Hc as <-. apply cost_printed. exact Ht.
Qed.

Lemma circularity_and_cost_metrics_print_exactly_witness :
  valid scenario_aluminium /\
  exists o,
    run_button_block scenario_aluminium = OK o /\
    metric_circularity o
      = digits ((30 + 2 * Spec.eol_bonus Spec.Recycling) / 2)
        +:+ (if Z.odd 30 then ".5" else ".0") /\
    metric_recycle_cost scenario_aluminium o
      = group_thousands (digits (cost_per_tonne Spec.Aluminium * 1))
        +:+ ".00 (for " +:+ digits 1 +:+ " t)".
Proof.
  split; [constructor; simpl; auto; lia |].
  apply (circularity_and_cost_metrics_print_exactly scenario_aluminium
           Spec.Aluminium Spec.Recycling);
    [constructor; simpl; auto; lia | reflexivity | reflexivity].
Defined.

(** The by-product figures printed. *)
Lemma by_products_printed (t : Z) :
  1 <= t <= 10000 ->
  format_f 2 (PyFloat Spec.red_mud_ratio * PyInt t)%py
  = digits (3 * t / 2) +:+ (if Z.odd t then ".50" else ".00") /\
  format_f 1 (PyFloat Spec.so2_ratio * PyInt t)%py = digits (25 * t) +:+ ".0".
Proof.
  intros Ht.
  destruct (printed_figures_exact t Ht) as (_ & Hmud & Hso2).
  destruct (exact_units_printed _ _ _ Hmud) as [-> _].
  destruct (exact_units_printed _ _ _ Hso2) as [-> _].
  destruct (fixed_notation_whole (25 * t)) as (_ & _ & ->).
  split; [apply fixed_notation_halves | reflexivity].
Qed.

(** X15.  The by-product panel reports the metal's own, nonzero by-product
    and prints it without rounding: for Aluminium the red mud
    [1.5 * transport_tonnes] with two decimals ([.00] or [.50]), for Copper
    the SO2 [25 * transport_tonnes] with one decimal ([.0]); each line ends
    with the tonnage. *)
Theorem by_product_panel_prints_exactly (i : input) (m : Spec.Metal) :
  valid i ->
  metal i = Spec.metal_label m ->
  exists o,
    run_button_block i = OK o /\
    by_product_lines i o =
      match m with
      | Spec.Aluminium =>
          [ "Red mud estimate: **"
            +:+ (digits (3 * transport_tonnes i / 2)
                 +:+ (if Z.odd (transport_tonnes i) then ".50" else ".00"))
            +:+ " tonnes** of red mud produced for " +:+ digits (transport_tonnes i)
            +:+ " t of aluminium (typical literature estimate ~1.5 t red mud / t Al).";
            "Valuable routes: cement substitute, pigment (iron oxides), rare earth recovery (pilot scale). See CPCB red mud guidelines (sources)." ]
      | Spec.Copper =>
          [ "Estimated SO₂ generation: **"
            +:+ (digits (25 * transport_tonnes i) +:+ ".0")
            +:+ " kg** for " +:+ digits (transport_tonnes i)
            +:+ " t of copper smelted (illustrative).";
            "Captured SO₂ can be converted to sulfuric acid (H2SO4) — valuable industrial chemical (fertilizers, chemicals)." ]
      end.
Proof.
  intros Hv Hm.
  destruct (run_button_block_valid i Hv) as (o & Ho & E).
  assert (Ht : 1 <= transport_tonnes i <= 10000) by (destruct Hv; assumption).
  destruct (by_products_labels i o m Hm E) as [Hrm Hso2].
  destruct (by_products_printed _ Ht) as [Pmud Pso2].
  assert (Hstr : str_int (transport_tonnes i) = digits (transport_tonnes i)).
  { unfold str_int. destruct (transport_tonnes i <? 0) eqn:Hneg; [| reflexivity].
    apply Z.ltb_lt in Hneg. lia. }
  exists o. split; [exact Ho |].
  unfold by_product_lines. rewrite Hm, Hrm, Hso2, Hstr.
  destruct m; simpl String.eqb; cbv iota; [rewrite Pmud | rewrite Pso2]; reflexivity.
Qed.

Lemma by_product_panel_prints_exactly_witness :
  valid scenario_copper /\
  exists o,
    run_button_block scenario_copper = OK o /\
    by_product_lines scenario_copper o =
      [ "Estimated SO₂ generation: **"
        +:+ (digits (25 * transport_tonnes scenario_copper) +:+ ".0")
        +:+ " kg** for " +:+ digits (transport_tonnes scenario_copper)
        +:+ " t of copper smelted (illustrative).";
        "Captured SO₂ can be converted to sulfuric acid (H2SO4) — valuable industrial chemical (fertilizers, chemicals)." ].
Proof.
  split; [constructor; simpl; auto; lia |].
  apply (by_product_panel_prints_exactly scenario_copper Spec.Copper);
    [constructor; simpl; auto; lia | reflexivity].
Defined.
